(** * standards-agent-plugin: OpenConvAIPlugin and StandardsKit

    A shallow embedding of the two classes of the package,
    [src/plugins/openconvai/OpenConvAIPlugin.ts] and [src/StandardsKit.ts],
    together with the properties of their bootstrap and lifecycle code.  The
    sources hold two revisions of [src/StandardsKit.ts]; both are embedded,
    [StandardsKit] (fifteen options) and [StandardsKitBasic] (eight).  The
    helpers of the build configuration, [vite.config.ts], and the two
    functions of [examples/interactive-demo.ts] that load and select an
    agent identity are embedded as well ([ViteConfig], [InteractiveDemo]).

    Conventions of the embedding.
    - JavaScript values that reach the code from the network (the mirror-node
      account record) are values of [JsVal]; property access, optional
      chaining, truthiness and [||] are written out.
    - Strings are [string]; the only string operations the code performs are
      [toLowerCase] and [includes] with the ASCII needle ["ecdsa"].  No
      non-ASCII character lower-cases to one of the letters e, c, d, s, a, and
      in UTF-8 an ASCII byte never occurs inside a multi-byte character, so
      ASCII lower-casing of the bytes decides [includes('ecdsa')] exactly as
      the JavaScript code does.
    - Mutable fields and calls to collaborators (mirror node, key parsers,
      signer, host agent, logger, tool constructors) are threaded through a
      state-and-exception monad whose state survives a [throw], as an object's
      fields do in JavaScript.  Every call to a collaborator is recorded as an
      event of the call; what the collaborator answers is given by a [World]
      record.  *)

From Stdlib Require Import String Ascii List Bool ZArith Lia.
Import ListNotations.
Local Open Scope string_scope.
Local Open Scope list_scope.

Set Implicit Arguments.
Set Warnings "-register-all".

(* ===================================================================== *)
(** ** JavaScript values, errors and completions                          *)
(* ===================================================================== *)

Module Js.

(** A JSON-shaped JavaScript value.  Numbers are only ever tested for
    truthiness here, so an integer stands for the number. *)
Inductive JsVal : Type :=
| JUndefined
| JNull
| JBool (b : bool)
| JNum (n : Z)
| JStr (s : string)
| JObj (props : list (string * JsVal)).

(** Values that can be thrown. *)
Inductive JsError : Type :=
| Error (message : string)       (* new Error(message) *)
| TypeError (message : string)   (* raised by the runtime itself *)
| Thrown (what : string).        (* whatever a collaborator throws *)

(** How a call completes: normally with a value, or abruptly. *)
Inductive Completion (A : Type) : Type :=
| Normal (a : A)
| Throw (e : JsError).
Arguments Normal {A} a.
Arguments Throw {A} e.

(** ToBoolean. *)
Definition truthy (v : JsVal) : bool :=
  match v with
  | JUndefined | JNull => false
  | JBool b => b
  | JNum n => negb (n =? 0)%Z
  | JStr s => negb (s =? "")
  | JObj _ => true
  end.

(** [a || b] *)
Definition or_else (a b : JsVal) : JsVal := if truthy a then a else b.

(** The value of the own property [k]; the first binding of a key counts. *)
Fixpoint lookupProp (k : string) (props : list (string * JsVal)) : JsVal :=
  match props with
  | [] => JUndefined
  | (k', v) :: rest => if k' =? k then v else lookupProp k rest
  end.

(** [v.k] for [v] neither null nor undefined.  The keys read by the code are
    [key] and [_type], which no primitive wrapper defines. *)
Definition getProp (v : JsVal) (k : string) : JsVal :=
  match v with
  | JObj props => lookupProp k props
  | _ => JUndefined
  end.

(** [v?.k] *)
Definition optChain (v : JsVal) (k : string) : JsVal :=
  match v with
  | JUndefined | JNull => JUndefined
  | _ => getProp v k
  end.

(** String.prototype.toLowerCase on one ASCII character. *)
Definition toLowerChar (c : ascii) : ascii :=
  let n := nat_of_ascii c in
  if ((65 <=? n) && (n <=? 90))%nat then ascii_of_nat (n + 32) else c.

Fixpoint toLowerCase (s : string) : string :=
  match s with
  | EmptyString => EmptyString
  | String c s' => String (toLowerChar c) (toLowerCase s')
  end.

(** String.prototype.includes *)
Fixpoint includes (s needle : string) : bool :=
  String.prefix needle s
  || match s with
     | EmptyString => false
     | String _ s' => includes s' needle
     end.

End Js.
Import Js.

(* ===================================================================== *)
(** ** State, events and exceptions                                       *)
(* ===================================================================== *)

(** A method body: it reads and writes the fields of [this] (the state
    [St]), emits the calls it makes to its collaborators (events [Ev]) and
    completes.  Field writes and events made before a [throw] remain. *)
Section Method.
Variables St Ev : Type.

Definition M (A : Type) : Type := St -> St * list Ev * Completion A.

Definition ret {A} (a : A) : M A := fun s => (s, [], Normal a).

Definition bind {A B} (m : M A) (k : A -> M B) : M B :=
  fun s =>
    match m s with
    | (s1, e1, Normal a) =>
        match k a s1 with
        | (s2, e2, c) => (s2, e1 ++ e2, c)
        end
    | (s1, e1, Throw e) => (s1, e1, Throw e)
    end.

(** [throw e] *)
Definition throw {A} (e : JsError) : M A := fun s => (s, [], Throw e).

(** [try { m } catch (error) { h error }] *)
Definition try_catch {A} (m : M A) (h : JsError -> M A) : M A :=
  fun s =>
    match m s with
    | (s1, e1, Normal a) => (s1, e1, Normal a)
    | (s1, e1, Throw e) =>
        match h e s1 with
        | (s2, e2, c) => (s2, e1 ++ e2, c)
        end
    end.

(** Reading and writing [this]. *)
Definition get : M St := fun s => (s, [], Normal s).
Definition modify (f : St -> St) : M unit := fun s => (f s, [], Normal tt).

(** A call to a collaborator: the call is recorded, the collaborator's answer
    is how the call completes. *)
Definition call {A} (ev : Ev) (answer : Completion A) : M A :=
  fun s => (s, [ev], answer).

(** A completion that involves no collaborator (a runtime operation). *)
Definition lift {A} (c : Completion A) : M A := fun s => (s, [], c).

(** The answer of a constructor or parser that either throws or builds [a]. *)
Definition built {A} (failure : option JsError) (a : A) : Completion A :=
  match failure with
  | Some e => Throw e
  | None => Normal a
  end.
End Method.

Arguments ret {St Ev A} a.
Arguments bind {St Ev A B} m k.
Arguments throw {St Ev A} e.
Arguments try_catch {St Ev A} m h.
Arguments get {St Ev}.
Arguments modify {St Ev} f.
Arguments call {St Ev A} ev answer.
Arguments lift {St Ev A} c.

Declare Scope js_scope.
Delimit Scope js_scope with js.
Notation "x <- m ;; k" := (bind m (fun x => k))
  (at level 61, m at next level, right associativity) : js_scope.
Notation "m ;;; k" := (bind m (fun _ => k))
  (at level 61, right associativity) : js_scope.

(** The parts of a finished call. *)
Definition stateOf {St Ev A} (r : St * list Ev * Completion A) : St := fst (fst r).
Definition eventsOf {St Ev A} (r : St * list Ev * Completion A) : list Ev := snd (fst r).
Definition completionOf {St Ev A} (r : St * list Ev * Completion A) : Completion A := snd r.

(** State managers: one handed in by the caller, or the package's default
    [new OpenConvaiState()]. *)
Inductive IStateManager : Type :=
| HostState (ref : nat)
| OpenConvaiState.

(* ===================================================================== *)
(** ** src/plugins/openconvai/OpenConvAIPlugin.ts                         *)
(* ===================================================================== *)

Module OpenConvAIPlugin.
Local Open Scope js_scope.

(** Objects of the host runtime, known to the plugin by reference only. *)
Inductive HederaAgentKit : Type := KitRef (ref : nat).
Inductive Logger : Type := LoggerRef (ref : nat).

(** [GenericPluginContext]: [config.hederaKit] and [stateManager] may be
    absent, [logger] is required by the interface. *)
Record GenericPluginContext : Type := {
  config_hederaKit : option HederaAgentKit;
  ctx_stateManager : option IStateManager;
  logger : Logger
}.

(** [new HCS10Builder(hederaKit, stateManager)] *)
Record HCS10Builder : Type := {
  builder_hederaKit : HederaAgentKit;
  builder_stateManager : IStateManager
}.

(** The eleven tool classes imported from the standards agent kit. *)
Inductive ToolClass : Type :=
| RegisterAgentTool
| FindRegistrationsTool
| InitiateConnectionTool
| ListConnectionsTool
| SendMessageToConnectionTool
| CheckMessagesTool
| ConnectionMonitorTool
| ManageConnectionRequestsTool
| AcceptConnectionRequestTool
| RetrieveProfileTool
| ListUnapprovedConnectionRequestsTool.

(** The argument of every tool constructor. *)
Record ToolParams : Type := {
  p_hederaKit : HederaAgentKit;
  p_hcs10Builder : HCS10Builder;
  p_logger : Logger
}.

(** [new C(params)] *)
Record HederaTool : Type := {
  tool_class : ToolClass;
  tool_params : ToolParams
}.

(** The [name] field of a tool.  The classes live in the standards agent kit;
    the values are the ones the plugin's unit tests expect
    (tests/unit/openconvai-plugin.unit.test.ts, 'Tools are properly
    categorized'). *)
Definition tool_name (t : HederaTool) : string :=
  match tool_class t with
  | RegisterAgentTool => "register_agent"
  | FindRegistrationsTool => "find_registrations"
  | RetrieveProfileTool => "retrieve_profile"
  | InitiateConnectionTool => "initiate_connection"
  | ListConnectionsTool => "list_connections"
  | SendMessageToConnectionTool => "send_message_to_connection"
  | CheckMessagesTool => "check_messages"
  | ConnectionMonitorTool => "monitor_connections"
  | ManageConnectionRequestsTool => "manage_connection_requests"
  | AcceptConnectionRequestTool => "accept_connection_request"
  | ListUnapprovedConnectionRequestsTool => "list_unapproved_connection_requests"
  end.


(** Class fields of the plugin. *)
Definition id : string := "openconvai-standards-agent-kit".
Definition name : string := "OpenConvAI Standards Agent Kit Plugin".
Definition description : string :=
  "Comprehensive plugin providing all HCS-10 agent tools for registration, connections, and messaging".
Definition version : string := "1.0.0".
Definition author : string := "Hashgraph Online".

(** The mutable fields: [context] is inherited from [BasePlugin]. *)
Record Plugin : Type := {
  context : option GenericPluginContext;
  stateManager : option IStateManager;
  tools : list HederaTool
}.

(** [new OpenConvAIPlugin()] *)
Definition new : Plugin :=
  {| context := None; stateManager := None; tools := [] |}.

Definition set_context (c : GenericPluginContext) (p : Plugin) : Plugin :=
  {| context := Some c; stateManager := stateManager p; tools := tools p |}.
Definition set_stateManager (s : option IStateManager) (p : Plugin) : Plugin :=
  {| context := context p; stateManager := s; tools := tools p |}.
Definition set_tools (ts : list HederaTool) (p : Plugin) : Plugin :=
  {| context := context p; stateManager := stateManager p; tools := ts |}.

(** Calls the plugin makes. *)
Inductive Event : Type :=
| SuperInitialize (ctx : GenericPluginContext)
| LoggerWarn (lg : Logger) (message : string)
| LoggerInfo (lg : Logger) (message : string)
| LoggerError (lg : Logger) (message : string) (error : JsError)
| NewOpenConvaiState
| NewHCS10Builder (hederaKit : HederaAgentKit) (sm : IStateManager)
| NewTool (class : ToolClass) (params : ToolParams).

(** What the imported constructors do: [Some e] when the constructor throws
    [e].  Logging, [BasePlugin.initialize] and [new OpenConvaiState()] do not
    throw. *)
Record World : Type := {
  failNewHCS10Builder : HederaAgentKit -> IStateManager -> option JsError;
  failNewTool : ToolClass -> ToolParams -> option JsError
}.

Definition Method := M Plugin Event.

(** [super.initialize(context)]: BasePlugin stores the context. *)
Definition super_initialize (ctx : GenericPluginContext) : Method unit :=
  call (SuperInitialize ctx) (Normal tt) ;;;
  modify (set_context ctx).

(** Reading [this.context.<field>]; a TypeError when [this.context] is
    undefined. *)
Definition this_context : Method GenericPluginContext :=
  this <- get ;;
  match context this with
  | Some c => ret c
  | None => throw (TypeError "Cannot read properties of undefined")
  end.

Definition newTool (w : World) (c : ToolClass) (ps : ToolParams) : Method HederaTool :=
  call (NewTool c ps)
       (built (failNewTool w c ps) {| tool_class := c; tool_params := ps |}).

(** [private initializeTools(): void] *)
Definition initializeTools (w : World) : Method unit :=
  this <- get ;;
  match stateManager this with
  | None => throw (Error "StateManager must be initialized before creating tools")
  | Some sm =>
      ctx <- this_context ;;
      match config_hederaKit ctx with
      | None => throw (Error "HederaKit not found in context config")
      | Some hederaKit =>
          hcs10Builder <-
            call (NewHCS10Builder hederaKit sm)
                 (built (failNewHCS10Builder w hederaKit sm)
                        {| builder_hederaKit := hederaKit;
                           builder_stateManager := sm |}) ;;
          let params (lg : Logger) :=
            {| p_hederaKit := hederaKit;
               p_hcs10Builder := hcs10Builder;
               p_logger := lg |} in
          c1 <- this_context ;; t1 <- newTool w RegisterAgentTool (params (logger c1)) ;;
          c2 <- this_context ;; t2 <- newTool w FindRegistrationsTool (params (logger c2)) ;;
          c3 <- this_context ;; t3 <- newTool w RetrieveProfileTool (params (logger c3)) ;;
          c4 <- this_context ;; t4 <- newTool w InitiateConnectionTool (params (logger c4)) ;;
          c5 <- this_context ;; t5 <- newTool w ListConnectionsTool (params (logger c5)) ;;
          c6 <- this_context ;; t6 <- newTool w SendMessageToConnectionTool (params (logger c6)) ;;
          c7 <- this_context ;; t7 <- newTool w CheckMessagesTool (params (logger c7)) ;;
          c8 <- this_context ;; t8 <- newTool w ConnectionMonitorTool (params (logger c8)) ;;
          c9 <- this_context ;; t9 <- newTool w ManageConnectionRequestsTool (params (logger c9)) ;;
          c10 <- this_context ;; t10 <- newTool w AcceptConnectionRequestTool (params (logger c10)) ;;
          c11 <- this_context ;; t11 <- newTool w ListUnapprovedConnectionRequestsTool (params (logger c11)) ;;
          modify (set_tools [t1; t2; t3; t4; t5; t6; t7; t8; t9; t10; t11])
      end
  end.

Definition msg_no_kit : string :=
  "HederaKit not found in context. OpenConvAI tools will not be available.".
Definition msg_initialized : string :=
  "OpenConvAI Standards Agent Kit Plugin initialized successfully".
Definition msg_failed : string := "Failed to initialize OpenConvAI plugin:".
Definition msg_cleaned_up : string :=
  "OpenConvAI Standards Agent Kit Plugin cleaned up".

(** [override async initialize(context: GenericPluginContext): Promise<void>] *)
Definition initialize (w : World) (ctx : GenericPluginContext) : Method unit :=
  super_initialize ctx ;;;
  match config_hederaKit ctx with
  | None =>
      c <- this_context ;;
      call (LoggerWarn (logger c) msg_no_kit) (Normal tt)
  | Some hederaKit =>
      try_catch
        (sm <- match ctx_stateManager ctx with
               | Some s => ret s
               | None => call NewOpenConvaiState (Normal OpenConvaiState)
               end ;;
         modify (set_stateManager (Some sm)) ;;;
         initializeTools w ;;;
         c <- this_context ;;
         call (LoggerInfo (logger c) msg_initialized) (Normal tt))
        (fun error =>
           c <- this_context ;;
           call (LoggerError (logger c) msg_failed error) (Normal tt))
  end.

(** [getTools(): HederaTool[]] *)
Definition getTools (p : Plugin) : list HederaTool := tools p.

(** [getStateManager(): IStateManager | undefined] *)
Definition getStateManager (p : Plugin) : option IStateManager := stateManager p.

(** [override async cleanup(): Promise<void>] *)
Definition cleanup : Method unit :=
  modify (set_tools []) ;;;
  modify (set_stateManager None) ;;;
  this <- get ;;
  match context this with
  | Some c => call (LoggerInfo (logger c) msg_cleaned_up) (Normal tt)
  | None => ret tt
  end.

End OpenConvAIPlugin.

(* ===================================================================== *)
(** ** src/StandardsKit.ts, the revision with fifteen options             *)
(* ===================================================================== *)

Module StandardsKit.
Local Open Scope js_scope.

(** Plugin objects, by reference: an instance of this package's
    [OpenConvAIPlugin], or any other [BasePlugin] of the host runtime. *)
Inductive BasePlugin : Type :=
| OpenConvAIPluginRef (ref : nat)
| HostPluginRef (ref : nat).

(** [interface StandardsKitOptions].  An optional field that was not supplied
    (is undefined) is [None]; [accountId] and [privateKey] are required by
    the interface but read defensively by [initialize], so they may be
    absent too.  [mirrorNodeConfig] is an object, given by its properties. *)
Record StandardsKitOptions : Type := {
  accountId : option string;
  privateKey : option string;
  network : option string;
  openAIApiKey : string;
  openAIModelName : option string;
  verbose : option bool;
  operationalMode : option string;
  userAccountId : option string;
  customSystemMessagePreamble : option string;
  customSystemMessagePostamble : option string;
  additionalPlugins : option (list BasePlugin);
  opt_stateManager : option IStateManager;
  scheduleUserTransactionsInBytesMode : option bool;
  mirrorNodeConfig : option (list (string * JsVal));
  disableLogging : option bool
}.

(** Results of the two key parsers of [PrivateKey]. *)
Inductive Curve : Type := ECDSA | ED25519.
Record PrivateKey : Type := { curve : Curve; parsedFrom : string }.

(** [new ServerSigner(accountId, privateKeyInstance, network)] *)
Record ServerSigner : Type := {
  signer_accountId : string;
  signer_key : PrivateKey;
  signer_network : string
}.

(** A property of the agent configuration object: a plain value, or the
    nested [pluginConfig] with its [plugins] and [appConfig.stateManager]. *)
Inductive ConfigValue : Type :=
| Val (v : JsVal)
| PluginConfig (plugins : list BasePlugin) (appConfig_stateManager : IStateManager).

(** [HederaConversationalAgentConfig], as the object literal lists its own
    properties. *)
Definition HederaConversationalAgentConfig : Type := list (string * ConfigValue).

Fixpoint field (k : string) (cfg : HederaConversationalAgentConfig) : option ConfigValue :=
  match cfg with
  | [] => None
  | (k', v) :: rest => if k' =? k then Some v else field k rest
  end.


(** [...(x !== undefined && { k: x })] *)
Definition spread_if_defined (k : string) (x : option JsVal) : HederaConversationalAgentConfig :=
  match x with
  | Some v => [(k, Val v)]
  | None => []
  end.

(** The value of a possibly-undefined variable. *)
Definition js_string (x : option string) : JsVal :=
  match x with
  | Some s => JStr s
  | None => JUndefined
  end.

(** [new HederaConversationalAgent(serverSigner, agentConfig)] *)
Record HederaConversationalAgent : Type := {
  agent_signer : ServerSigner;
  agent_config : HederaConversationalAgentConfig
}.

Inductive ChatRole : Type := human | ai.
Record ChatMessage : Type := { type : ChatRole; content : string }.

(** [AgentResponse] is produced and consumed by the host runtime only. *)
Definition AgentResponse : Type := JsVal.

(** The fields of a [StandardsKit]. *)
Record Kit : Type := {
  conversationalAgent : option HederaConversationalAgent;
  plugin : BasePlugin;
  stateManager : IStateManager;
  options : StandardsKitOptions
}.

Definition set_conversationalAgent (a : HederaConversationalAgent) (k : Kit) : Kit :=
  {| conversationalAgent := Some a;
     plugin := plugin k;
     stateManager := stateManager k;
     options := options k |}.

(** [constructor(options: StandardsKitOptions)]; [ref] is the reference of
    the [new OpenConvAIPlugin()] it allocates. *)
Definition new (opts : StandardsKitOptions) (ref : nat) : Kit :=
  {| conversationalAgent := None;
     plugin := OpenConvAIPluginRef ref;
     stateManager := match opt_stateManager opts with
                     | Some sm => sm
                     | None => OpenConvaiState
                     end;
     options := opts |}.

(** Calls the kit makes. *)
Inductive Event : Type :=
| NewHederaMirrorNode (network : string)
| RequestAccount (network accountId : string)
| FromStringECDSA (privateKey : string)
| FromStringED25519 (privateKey : string)
| NewServerSigner (signer : ServerSigner)
| GetAllHederaCorePlugins
| NewHederaConversationalAgent (signer : ServerSigner) (cfg : HederaConversationalAgentConfig)
| AgentInitialize (agent : HederaConversationalAgent)
| AgentProcessMessage (agent : HederaConversationalAgent) (message : string)
                      (chatHistory : list ChatMessage)
| LoggerError (message : string) (error : JsError).

(** What the collaborators answer.  The mirror node resolves with a record or
    rejects; a key parser throws on a string that is not a key of its curve;
    the host agent's [initialize] and [processMessage] resolve or reject.  The
    constructors and [getAllHederaCorePlugins] only build objects. *)
Record World : Type := {
  requestAccount : string -> string -> Completion JsVal;
  failFromStringECDSA : string -> option JsError;
  failFromStringED25519 : string -> option JsError;
  getAllHederaCorePlugins : list BasePlugin;
  agentInitialize : HederaConversationalAgent -> Completion unit;
  agentProcessMessage :
    HederaConversationalAgent -> string -> list ChatMessage -> Completion AgentResponse
}.

Definition Method := M Kit Event.

Definition msg_required : string := "Account ID and private key are required".
Definition msg_not_initialized : string :=
  "StandardsKit not initialized. Call initialize() first.".
Definition msg_failed : string := "Failed to initialize StandardsKit:".

(** [x] when [!x] is false: a supplied, non-empty string. *)
Definition if_truthy (x : option string) : option string :=
  match x with
  | Some s => if s =? "" then None else Some s
  | None => None
  end.

(** [keyType?.toLowerCase()?.includes(needle)], as a condition.  A value
    without a [toLowerCase] method makes the call a TypeError (the message
    is the engine's). *)
Definition lowerCaseIncludes (keyType : JsVal) (needle : string) : Completion bool :=
  match keyType with
  | JUndefined | JNull => Normal false
  | JStr s => Normal (includes (toLowerCase s) needle)
  | _ => Throw (TypeError "keyType?.toLowerCase is not a function")
  end.

Definition nl : string := String (ascii_of_nat 10) EmptyString.
Definition dq : string := String (ascii_of_nat 34) EmptyString.

(** [const defaultSystemMessage = `...${accountId}...`] *)
Definition defaultSystemMessage (accountId : string) : string :=
  "You are a helpful assistant managing Hedera HCS-10 connections and messages." ++ nl ++
  "You have access to tools for registering agents, finding registered agents, initiating connections, listing active connections, sending messages over connections, and checking for new messages." ++ nl ++
  nl ++
  "*** IMPORTANT CONTEXT ***" ++ nl ++
  "You are currently operating as agent: " ++ accountId ++ nl ++
  "When users ask about " ++ dq ++ "my profile" ++ dq ++ ", " ++ dq ++ "my account" ++ dq ++
  ", " ++ dq ++ "my connections" ++ dq ++ ", etc., use this account ID: " ++ accountId ++ nl ++
  nl ++
  "Remember the connection numbers when listing connections, as users might refer to them.".

(** [async initialize(): Promise<void>] *)
Definition initialize (w : World) : Method unit :=
  this <- get ;;
  let o := options this in
  let network := match network o with Some n => n | None => "testnet" end in
  let openAIModelName := match openAIModelName o with Some m => m | None => "gpt-4o" end in
  let verbose := match verbose o with Some v => v | None => false end in
  let operationalMode := match operationalMode o with Some m => m | None => "autonomous" end in
  let additionalPlugins := match additionalPlugins o with Some ps => ps | None => [] end in
  match if_truthy (accountId o), if_truthy (privateKey o) with
  | Some accountId, Some privateKey =>
      try_catch
        (call (NewHederaMirrorNode network) (Normal tt) ;;;
         accountInfo <- call (RequestAccount network accountId)
                             (requestAccount w network accountId) ;;
         let keyType := or_else (optChain (optChain accountInfo "key") "_type") (JStr "") in
         isEcdsa <- lift (lowerCaseIncludes keyType "ecdsa") ;;
         privateKeyInstance <-
           (if isEcdsa : bool
            then call (FromStringECDSA privateKey)
                      (built (failFromStringECDSA w privateKey)
                             {| curve := ECDSA; parsedFrom := privateKey |})
            else call (FromStringED25519 privateKey)
                      (built (failFromStringED25519 w privateKey)
                             {| curve := ED25519; parsedFrom := privateKey |})) ;;
         let serverSigner :=
           {| signer_accountId := accountId;
              signer_key := privateKeyInstance;
              signer_network := network |} in
         call (NewServerSigner serverSigner) (Normal tt) ;;;
         corePlugins <- call GetAllHederaCorePlugins (Normal (getAllHederaCorePlugins w)) ;;
         let allPlugins := [plugin this] ++ additionalPlugins ++ corePlugins in
         let agentConfig : HederaConversationalAgentConfig :=
           [ ("pluginConfig", PluginConfig allPlugins (stateManager this));
             ("openAIApiKey", Val (JStr (openAIApiKey o)));
             ("openAIModelName", Val (JStr openAIModelName));
             ("verbose", Val (JBool verbose));
             ("operationalMode", Val (JStr operationalMode));
             ("userAccountId", Val (js_string (userAccountId o)));
             ("customSystemMessagePreamble",
               Val (or_else (js_string (customSystemMessagePreamble o))
                            (JStr (defaultSystemMessage accountId)))) ]
           ++ spread_if_defined "customSystemMessagePostamble"
                (option_map JStr (customSystemMessagePostamble o))
           ++ spread_if_defined "scheduleUserTransactionsInBytesMode"
                (option_map JBool (scheduleUserTransactionsInBytesMode o))
           ++ spread_if_defined "mirrorNodeConfig"
                (option_map JObj (mirrorNodeConfig o))
           ++ spread_if_defined "disableLogging" (option_map JBool (disableLogging o)) in
         let agent := {| agent_signer := serverSigner; agent_config := agentConfig |} in
         call (NewHederaConversationalAgent serverSigner agentConfig) (Normal tt) ;;;
         modify (set_conversationalAgent agent) ;;;
         call (AgentInitialize agent) (agentInitialize w agent))
        (fun error =>
           call (LoggerError msg_failed error) (Normal tt) ;;;
           throw error)
  | _, _ => throw (Error msg_required)
  end.

(** [getPlugin(): OpenConvAIPlugin] *)
Definition getPlugin (k : Kit) : BasePlugin := plugin k.

(** [getStateManager(): IStateManager] *)
Definition getStateManager (k : Kit) : IStateManager := stateManager k.

(** [getConversationalAgent(): HederaConversationalAgent] *)
Definition getConversationalAgent (k : Kit) : Completion HederaConversationalAgent :=
  match conversationalAgent k with
  | None => Throw (Error msg_not_initialized)
  | Some a => Normal a
  end.

(** [async processMessage(message, chatHistory = []): Promise<AgentResponse>] *)
Definition processMessage (w : World) (message : string)
    (chatHistory : option (list ChatMessage)) : Method AgentResponse :=
  let chatHistory := match chatHistory with Some h => h | None => [] end in
  this <- get ;;
  match conversationalAgent this with
  | None => throw (Error msg_not_initialized)
  | Some a =>
      call (AgentProcessMessage a message chatHistory)
           (agentProcessMessage w a message chatHistory)
  end.

End StandardsKit.

(* ===================================================================== *)
(** ** src/StandardsKit.ts, the revision with eight options               *)
(* ===================================================================== *)

(** The sources hold a second revision of [src/StandardsKit.ts]: its options
    interface stops at [userAccountId], its state manager is always the
    default one, and its prompt is fixed.  The collaborators are the same,
    so it shares the objects, events and worlds of [StandardsKit]. *)
Module StandardsKitBasic.
Import StandardsKit.
Local Open Scope js_scope.

(** [interface StandardsKitOptions] *)
Record StandardsKitOptions : Type := {
  accountId : option string;
  privateKey : option string;
  network : option string;
  openAIApiKey : string;
  openAIModelName : option string;
  verbose : option bool;
  operationalMode : option string;
  userAccountId : option string
}.

Record Kit : Type := {
  conversationalAgent : option HederaConversationalAgent;
  plugin : BasePlugin;
  stateManager : IStateManager;
  options : StandardsKitOptions
}.

Definition set_conversationalAgent (a : HederaConversationalAgent) (k : Kit) : Kit :=
  {| conversationalAgent := Some a;
     plugin := plugin k;
     stateManager := stateManager k;
     options := options k |}.

(** [constructor(options: StandardsKitOptions)] *)
Definition new (opts : StandardsKitOptions) (ref : nat) : Kit :=
  {| conversationalAgent := None;
     plugin := OpenConvAIPluginRef ref;
     stateManager := OpenConvaiState;
     options := opts |}.

Definition Method := M Kit Event.

(** The template literal passed as [customSystemMessagePreamble]. *)
Definition systemMessage (accountId : string) : string :=
  "You are a helpful assistant managing Hedera HCS-10 connections and messages." ++ nl ++
  "You have access to tools for registering agents, finding registered agents, initiating connections, listing active connections, sending messages over connections, and checking for new messages." ++ nl ++
  nl ++
  "*** IMPORTANT CONTEXT ***" ++ nl ++
  "You are currently operating as agent: " ++ accountId ++ nl ++
  "When users ask about " ++ dq ++ "my profile" ++ dq ++ ", " ++ dq ++ "my account" ++ dq ++
  ", " ++ dq ++ "my connections" ++ dq ++ ", etc., use this account ID: " ++ accountId ++ nl ++
  nl ++
  "*** IMPORTANT TOOL SELECTION RULES ***" ++ nl ++
  "- To REGISTER a new agent, use 'register_agent'." ++ nl ++
  "- To FIND existing registered agents in the registry, use 'find_registrations'. You can filter by accountId or tags." ++ nl ++
  "- To START a NEW connection TO a specific target agent (using their account ID), ALWAYS use the 'initiate_connection' tool." ++ nl ++
  "- To LISTEN for INCOMING connection requests FROM other agents, use the 'monitor_connections' tool (it takes NO arguments)." ++ nl ++
  "- To SEND a message to a specific agent, use 'send_message_to_connection' tool." ++ nl ++
  "- To ACCEPT incoming connection requests, use the 'accept_connection_request' tool." ++ nl ++
  "- To MANAGE and VIEW pending connection requests, use the 'manage_connection_requests' tool." ++ nl ++
  "- To CHECK FOR *NEW* messages since the last check, use the 'check_messages' tool." ++ nl ++
  "- To GET THE *LATEST* MESSAGE(S) in a conversation, even if you might have seen them before, use the 'check_messages' tool and set the parameter 'fetchLatest: true'. You can optionally specify 'lastMessagesCount' to get more than one latest message (default is 1)." ++ nl ++
  "- To RETRIEVE a profile, use the 'retrieve_profile' tool. When users ask for " ++ dq ++
  "my profile" ++ dq ++ ", use the current account ID: " ++ accountId ++ nl ++
  "- Do NOT confuse these tools." ++ nl ++
  nl ++
  "Remember the connection numbers when listing connections, as users might refer to them.".

(** [async initialize(): Promise<void>] *)
Definition initialize (w : World) : Method unit :=
  this <- get ;;
  let o := options this in
  let network := match network o with Some n => n | None => "testnet" end in
  let openAIModelName := match openAIModelName o with Some m => m | None => "gpt-4o" end in
  let verbose := match verbose o with Some v => v | None => false end in
  let operationalMode := match operationalMode o with Some m => m | None => "autonomous" end in
  match if_truthy (accountId o), if_truthy (privateKey o) with
  | Some accountId, Some privateKey =>
      try_catch
        (call (NewHederaMirrorNode network) (Normal tt) ;;;
         accountInfo <- call (RequestAccount network accountId)
                             (requestAccount w network accountId) ;;
         let keyType := or_else (optChain (optChain accountInfo "key") "_type") (JStr "") in
         isEcdsa <- lift (lowerCaseIncludes keyType "ecdsa") ;;
         privateKeyInstance <-
           (if isEcdsa : bool
            then call (FromStringECDSA privateKey)
                      (built (failFromStringECDSA w privateKey)
                             {| curve := ECDSA; parsedFrom := privateKey |})
            else call (FromStringED25519 privateKey)
                      (built (failFromStringED25519 w privateKey)
                             {| curve := ED25519; parsedFrom := privateKey |})) ;;
         let serverSigner :=
           {| signer_accountId := accountId;
              signer_key := privateKeyInstance;
              signer_network := network |} in
         call (NewServerSigner serverSigner) (Normal tt) ;;;
         corePlugins <- call GetAllHederaCorePlugins (Normal (getAllHederaCorePlugins w)) ;;
         let agentConfig : HederaConversationalAgentConfig :=
           [ ("pluginConfig", PluginConfig ([plugin this] ++ corePlugins) (stateManager this));
             ("openAIApiKey", Val (JStr (openAIApiKey o)));
             ("openAIModelName", Val (JStr openAIModelName));
             ("verbose", Val (JBool verbose));
             ("operationalMode", Val (JStr operationalMode));
             ("userAccountId", Val (js_string (userAccountId o)));
             ("customSystemMessagePreamble", Val (JStr (systemMessage accountId))) ] in
         let agent := {| agent_signer := serverSigner; agent_config := agentConfig |} in
         call (NewHederaConversationalAgent serverSigner agentConfig) (Normal tt) ;;;
         modify (set_conversationalAgent agent) ;;;
         call (AgentInitialize agent) (agentInitialize w agent))
        (fun error =>
           call (LoggerError msg_failed error) (Normal tt) ;;;
           throw error)
  | _, _ => throw (Error msg_required)
  end.

(** [getPlugin(): OpenConvAIPlugin] *)
Definition getPlugin (k : Kit) : BasePlugin := plugin k.

(** [getStateManager(): OpenConvaiState] *)
Definition getStateManager (k : Kit) : IStateManager := stateManager k.

(** [getConversationalAgent(): HederaConversationalAgent] *)
Definition getConversationalAgent (k : Kit) : Completion HederaConversationalAgent :=
  match conversationalAgent k with
  | None => Throw (Error msg_not_initialized)
  | Some a => Normal a
  end.

(** [async processMessage(message, chatHistory = []): Promise<AgentResponse>] *)
Definition processMessage (w : World) (message : string)
    (chatHistory : option (list ChatMessage)) : Method AgentResponse :=
  let chatHistory := match chatHistory with Some h => h | None => [] end in
  this <- get ;;
  match conversationalAgent this with
  | None => throw (Error msg_not_initialized)
  | Some a =>
      call (AgentProcessMessage a message chatHistory)
           (agentProcessMessage w a message chatHistory)
  end.

End StandardsKitBasic.

(* ===================================================================== *)
(** ** Lifecycles: sequences of calls on one object                       *)
(* ===================================================================== *)

Module PluginLifecycle.
Import OpenConvAIPlugin.

(** What a host does with a plugin object.  [getTools] and [getStateManager]
    only read. *)
Inductive PluginCall : Type :=
| Initialize (w : World) (ctx : GenericPluginContext)
| GetTools
| GetStateManager
| Cleanup.

Definition isInitialize (c : PluginCall) : bool :=
  match c with
  | Initialize _ _ => true
  | _ => false
  end.

(** An [initialize] call ran to the end of its [try] block: it logged
    [msg_initialized]. *)
Definition succeeded (evs : list Event) : bool :=
  existsb (fun e => match e with
                    | LoggerInfo _ m => m =? msg_initialized
                    | _ => false
                    end) evs.

Definition step (c : PluginCall) (p : Plugin) : Plugin :=
  match c with
  | Initialize w ctx => stateOf (initialize w ctx p)
  | GetTools => p
  | GetStateManager => p
  | Cleanup => stateOf (cleanup p)
  end.

(** The plugin after the calls, oldest first. *)
Fixpoint run (calls : list PluginCall) (p : Plugin) : Plugin :=
  match calls with
  | [] => p
  | c :: rest => run rest (step c p)
  end.

(** Whether, after the calls, an [initialize] has succeeded and no [cleanup]
    has followed it; [r] is the answer before the calls. *)
Fixpoint ready (calls : list PluginCall) (p : Plugin) (r : bool) : bool :=
  match calls with
  | [] => r
  | c :: rest =>
      ready rest (step c p)
        match c with
        | Initialize w ctx => r || succeeded (eventsOf (initialize w ctx p))
        | Cleanup => false
        | _ => r
        end
  end.

(** The context's state manager if it carries one, otherwise the default. *)
Definition stateManagerFor (ctx : GenericPluginContext) : IStateManager :=
  match ctx_stateManager ctx with
  | Some sm => sm
  | None => OpenConvaiState
  end.

(** The state manager chosen by the last [initialize] that was given an
    agent-kit handle, unless a [cleanup] followed it; [acc] is the answer
    before the calls. *)
Fixpoint chosenStateManager (calls : list PluginCall) (acc : option IStateManager)
  : option IStateManager :=
  match calls with
  | [] => acc
  | Initialize _ ctx :: rest =>
      chosenStateManager rest
        match config_hederaKit ctx with
        | Some _ => Some (stateManagerFor ctx)
        | None => acc
        end
  | Cleanup :: rest => chosenStateManager rest None
  | _ :: rest => chosenStateManager rest acc
  end.

(** The catalogue in the order of the array literal of [initializeTools]:
    registration, find-registrations, retrieve-profile, initiate-connection,
    list-connections, send-message-to-connection, check-messages,
    connection-monitor, manage-connection-requests,
    accept-connection-request, list-unapproved-connection-requests. *)
Definition expectedCatalogue : list ToolClass :=
  [ RegisterAgentTool; FindRegistrationsTool; RetrieveProfileTool;
    InitiateConnectionTool; ListConnectionsTool; SendMessageToConnectionTool;
    CheckMessagesTool; ConnectionMonitorTool; ManageConnectionRequestsTool;
    AcceptConnectionRequestTool; ListUnapprovedConnectionRequestsTool ].

(** Constructor calls among the events. *)
Definition isConstruction (e : Event) : Prop :=
  match e with
  | NewHCS10Builder _ _ | NewTool _ _ => True
  | _ => False
  end.

(** The arguments of every [new HCS10Builder(...)] among the events. *)
Fixpoint builderCalls (evs : list Event) : list (HederaAgentKit * IStateManager) :=
  match evs with
  | [] => []
  | NewHCS10Builder k sm :: rest => (k, sm) :: builderCalls rest
  | _ :: rest => builderCalls rest
  end.


(** Sample collaborators and contexts. *)
Definition constructsAll : World :=
  {| failNewHCS10Builder := fun _ _ => None;
     failNewTool := fun _ _ => None |}.

Definition builderThrows : World :=
  {| failNewHCS10Builder := fun _ _ => Some (Thrown "client initialization failed");
     failNewTool := fun _ _ => None |}.

Definition withKit : GenericPluginContext :=
  {| config_hederaKit := Some (KitRef 1);
     ctx_stateManager := None;
     logger := LoggerRef 2 |}.

Definition withKitAndState : GenericPluginContext :=
  {| config_hederaKit := Some (KitRef 1);
     ctx_stateManager := Some (HostState 7);
     logger := LoggerRef 2 |}.

Definition withoutKit : GenericPluginContext :=
  {| config_hederaKit := None;
     ctx_stateManager := None;
     logger := LoggerRef 2 |}.

End PluginLifecycle.

Module KitLifecycle.
Import StandardsKit.

(** The network the kit talks to: [network = 'testnet'] by default. *)
Definition networkOf (k : Kit) : string :=
  match network (options k) with
  | Some n => n
  | None => "testnet"
  end.

(** The same for the revision with eight options. *)
Definition basicNetworkOf (k : StandardsKitBasic.Kit) : string :=
  match StandardsKitBasic.network (StandardsKitBasic.options k) with
  | Some n => n
  | None => "testnet"
  end.

(** The key-type tag of a mirror-node record: [accountInfo?.key?._type]. *)
Definition keyTypeTag (accountInfo : JsVal) : JsVal :=
  optChain (optChain accountInfo "key") "_type".

(** One letter in either case. *)
Definition letter (lower upper c : ascii) : Prop := c = lower \/ c = upper.

(** The five letters e, c, d, s, a, each in either case. *)
Definition spellsEcdsa (s : string) : Prop :=
  exists c1 c2 c3 c4 c5,
    s = String c1 (String c2 (String c3 (String c4 (String c5 EmptyString))))
    /\ letter "e" "E" c1 /\ letter "c" "C" c2 /\ letter "d" "D" c3
    /\ letter "s" "S" c4 /\ letter "a" "A" c5.

(** The tag contains the substring "ecdsa" in any letter case. *)
Definition containsEcdsaAnyCase (tag : string) : Prop :=
  exists pre mid post, tag = (pre ++ mid ++ post)%string /\ spellsEcdsa mid.

(** The calls to the two key parsers among the events, in order. *)
Fixpoint parserCalls (evs : list Event) : list Event :=
  match evs with
  | [] => []
  | FromStringECDSA pk :: rest => FromStringECDSA pk :: parserCalls rest
  | FromStringED25519 pk :: rest => FromStringED25519 pk :: parserCalls rest
  | _ :: rest => parserCalls rest
  end.

(** What one run of [initialize] (its events [evs] and its completion [c])
    does with the raw private-key string [pk] when the mirror lookup has
    resolved with [info]: by the key-type tag, which parser is invoked. *)
Definition ParserFollowsTag (pk : string) (info : JsVal)
    (evs : list Event) (c : Completion unit) : Prop :=
  let tag := keyTypeTag info in
  (forall s, tag = JStr s -> containsEcdsaAnyCase s ->
     parserCalls evs = [FromStringECDSA pk])
  /\ (truthy tag = false -> parserCalls evs = [FromStringED25519 pk])
  /\ (info = JNull \/ info = JUndefined \/ optChain info "key" = JUndefined
        \/ tag = JUndefined ->
      parserCalls evs = [FromStringED25519 pk])
  /\ (forall s, tag = JStr s -> ~ containsEcdsaAnyCase s ->
        parserCalls evs = [FromStringED25519 pk])
  /\ (truthy tag = true -> (forall s, tag <> JStr s) ->
        parserCalls evs = [] /\ exists message, c = Throw (TypeError message)).

(** The configuration handed to [new HederaConversationalAgent], if the call
    was made. *)
Fixpoint assembledConfig (evs : list Event) : option HederaConversationalAgentConfig :=
  match evs with
  | [] => None
  | NewHederaConversationalAgent _ cfg :: _ => Some cfg
  | _ :: rest => assembledConfig rest
  end.

(** [cfg.pluginConfig.plugins] *)
Definition pluginsOf (cfg : HederaConversationalAgentConfig) : option (list BasePlugin) :=
  match field "pluginConfig" cfg with
  | Some (PluginConfig ps _) => Some ps
  | _ => None
  end.


(** What the object literal [agentConfig] holds, property by property, for
    the account identifier [a] that passed the credential check. *)
Definition ConfigFacts (w : World) (k : Kit) (a : string)
    (cfg : HederaConversationalAgentConfig) : Prop :=
  let o := options k in
  field "pluginConfig" cfg =
    Some (PluginConfig
            ([getPlugin k]
               ++ match additionalPlugins o with Some ps => ps | None => [] end
               ++ getAllHederaCorePlugins w)
            (getStateManager k))
  /\ field "openAIApiKey" cfg = Some (Val (JStr (openAIApiKey o)))
  /\ field "openAIModelName" cfg =
       Some (Val (JStr match openAIModelName o with Some m => m | None => "gpt-4o" end))
  /\ field "verbose" cfg =
       Some (Val (JBool match verbose o with Some v => v | None => false end))
  /\ field "operationalMode" cfg =
       Some (Val (JStr match operationalMode o with Some m => m | None => "autonomous" end))
  /\ field "userAccountId" cfg = Some (Val (js_string (userAccountId o)))
  /\ field "customSystemMessagePreamble" cfg =
       Some (Val (JStr match customSystemMessagePreamble o with
                       | Some s => if s =? "" then defaultSystemMessage a else s
                       | None => defaultSystemMessage a
                       end))
  /\ field "customSystemMessagePostamble" cfg =
       option_map (fun s => Val (JStr s)) (customSystemMessagePostamble o)
  /\ field "scheduleUserTransactionsInBytesMode" cfg =
       option_map (fun b => Val (JBool b)) (scheduleUserTransactionsInBytesMode o)
  /\ field "mirrorNodeConfig" cfg =
       option_map (fun c => Val (JObj c)) (mirrorNodeConfig o)
  /\ field "disableLogging" cfg =
       option_map (fun b => Val (JBool b)) (disableLogging o).

(** What a caller does with a kit. *)
Inductive KitCall : Type :=
| Initialize (w : World)
| ProcessMessage (w : World) (message : string) (chatHistory : option (list ChatMessage)).

Definition step (c : KitCall) (k : Kit) : Kit :=
  match c with
  | Initialize w => stateOf (initialize w k)
  | ProcessMessage w m h => stateOf (processMessage w m h k)
  end.

Fixpoint run (calls : list KitCall) (k : Kit) : Kit :=
  match calls with
  | [] => k
  | c :: rest => run rest (step c k)
  end.

(** Whether some [initialize] among the calls completed successfully. *)
Fixpoint initialized (calls : list KitCall) (k : Kit) : bool :=
  match calls with
  | [] => false
  | c :: rest =>
      match c with
      | Initialize w =>
          match completionOf (initialize w k) with
          | Normal _ => true
          | Throw _ => false
          end
      | _ => false
      end || initialized rest (step c k)
  end.

(** Whether some [initialize] among the calls got as far as
    [new HederaConversationalAgent]. *)
Fixpoint agentConstructed (calls : list KitCall) (k : Kit) : bool :=
  match calls with
  | [] => false
  | c :: rest =>
      match c with
      | Initialize w =>
          match assembledConfig (eventsOf (initialize w k)) with
          | Some _ => true
          | None => false
          end
      | _ => false
      end || agentConstructed rest (step c k)
  end.

(** Sample inputs and collaborators. *)
Definition credentials (a pk : string) : StandardsKitOptions :=
  {| accountId := Some a;
     privateKey := Some pk;
     network := None;
     openAIApiKey := "sk-test";
     openAIModelName := None;
     verbose := None;
     operationalMode := None;
     userAccountId := None;
     customSystemMessagePreamble := None;
     customSystemMessagePostamble := None;
     additionalPlugins := None;
     opt_stateManager := None;
     scheduleUserTransactionsInBytesMode := None;
     mirrorNodeConfig := None;
     disableLogging := None |}.

Definition sampleOptions : StandardsKitOptions :=
  credentials "0.0.12345" "mock-private-key".

Definition withPreamble (preamble : string) : StandardsKitOptions :=
  {| accountId := Some "0.0.12345";
     privateKey := Some "mock-private-key";
     network := Some "mainnet";
     openAIApiKey := "sk-test";
     openAIModelName := None;
     verbose := Some true;
     operationalMode := Some "returnBytes";
     userAccountId := Some "0.0.99999";
     customSystemMessagePreamble := Some preamble;
     customSystemMessagePostamble := Some "Additional instructions";
     additionalPlugins := Some [HostPluginRef 50; HostPluginRef 51];
     opt_stateManager := Some (HostState 7);
     scheduleUserTransactionsInBytesMode := Some true;
     mirrorNodeConfig := None;
     disableLogging := Some true |}.

Definition basicCredentials (a pk : string) : StandardsKitBasic.StandardsKitOptions :=
  {| StandardsKitBasic.accountId := Some a;
     StandardsKitBasic.privateKey := Some pk;
     StandardsKitBasic.network := None;
     StandardsKitBasic.openAIApiKey := "sk-test";
     StandardsKitBasic.openAIModelName := None;
     StandardsKitBasic.verbose := None;
     StandardsKitBasic.operationalMode := None;
     StandardsKitBasic.userAccountId := None |}.

Definition keyRecord (tag : JsVal) : JsVal :=
  JObj [("key", JObj [("_type", tag)])].

Definition sampleResponse : AgentResponse :=
  JObj [("output", JStr "Agent response")].

(** The mirror node resolves with [info], both parsers accept every string,
    the host agent initializes and answers. *)
Definition mirrorReturns (info : JsVal) : World :=
  {| requestAccount := fun _ _ => Normal info;
     failFromStringECDSA := fun _ => None;
     failFromStringED25519 := fun _ => None;
     getAllHederaCorePlugins := [HostPluginRef 100; HostPluginRef 101];
     agentInitialize := fun _ => Normal tt;
     agentProcessMessage := fun _ _ _ => Normal sampleResponse |}.

(** The mirror node rejects. *)
Definition mirrorRejects : World :=
  {| requestAccount := fun _ _ => Throw (Thrown "Network error");
     failFromStringECDSA := fun _ => None;
     failFromStringED25519 := fun _ => None;
     getAllHederaCorePlugins := [];
     agentInitialize := fun _ => Normal tt;
     agentProcessMessage := fun _ _ _ => Normal sampleResponse |}.

(** As above with an ED25519 record, but the host agent's [initialize]
    rejects. *)
Definition agentInitializeRejects : World :=
  {| requestAccount := fun _ _ => Normal (keyRecord (JStr "ED25519"));
     failFromStringECDSA := fun _ => None;
     failFromStringED25519 := fun _ => None;
     getAllHederaCorePlugins := [HostPluginRef 100; HostPluginRef 101];
     agentInitialize := fun _ => Throw (Thrown "agent initialization failed");
     agentProcessMessage := fun _ _ _ => Normal sampleResponse |}.

End KitLifecycle.

(* ===================================================================== *)
(** ** What a plugin call constructs and logs                             *)
(* ===================================================================== *)

Module PluginTrace.
Import OpenConvAIPlugin PluginLifecycle.

(** The logger calls among the events, in order. *)
Fixpoint loggerCalls (evs : list Event) : list Event :=
  match evs with
  | [] => []
  | LoggerWarn lg m :: rest => LoggerWarn lg m :: loggerCalls rest
  | LoggerInfo lg m :: rest => LoggerInfo lg m :: loggerCalls rest
  | LoggerError lg m e :: rest => LoggerError lg m e :: loggerCalls rest
  | _ :: rest => loggerCalls rest
  end.

(** The tool constructors called, with their argument, in order. *)
Fixpoint toolCalls (evs : list Event) : list (ToolClass * ToolParams) :=
  match evs with
  | [] => []
  | NewTool c ps :: rest => (c, ps) :: toolCalls rest
  | _ :: rest => toolCalls rest
  end.

(** How many times [new OpenConvaiState()] was called. *)
Fixpoint defaultStates (evs : list Event) : nat :=
  match evs with
  | [] => 0
  | NewOpenConvaiState :: rest => S (defaultStates rest)
  | _ :: rest => defaultStates rest
  end.

(** The classes of [cs] whose constructor is reached when they are
    constructed in turn with the argument [ps]: each one up to and including
    the first whose constructor throws. *)
Fixpoint constructedUntilThrow (w : World) (ps : ToolParams) (cs : list ToolClass)
  : list ToolClass :=
  match cs with
  | [] => []
  | c :: rest =>
      c :: match failNewTool w c ps with
           | Some _ => []
           | None => constructedUntilThrow w ps rest
           end
  end.

(** The error of the first constructor of [cs] that throws, if one does. *)
Fixpoint firstThrow (w : World) (ps : ToolParams) (cs : list ToolClass) : option JsError :=
  match cs with
  | [] => None
  | c :: rest =>
      match failNewTool w c ps with
      | Some e => Some e
      | None => firstThrow w ps rest
      end
  end.

(** The context of the last [initialize] among the calls; [acc] is the
    answer before the calls. *)
Fixpoint lastContext (calls : list PluginCall) (acc : option GenericPluginContext)
  : option GenericPluginContext :=
  match calls with
  | [] => acc
  | Initialize _ ctx :: rest => lastContext rest (Some ctx)
  | _ :: rest => lastContext rest acc
  end.

(** The eleven tools of the catalogue, all built with the one argument
    [ps]. *)
Definition catalogueWith (ps : ToolParams) : list HederaTool :=
  map (fun c => {| tool_class := c; tool_params := ps |}) expectedCatalogue.

(** The argument every tool constructor receives for the context [ctx] that
    carries the agent-kit handle [k]. *)
Definition paramsFor (ctx : GenericPluginContext) (k : HederaAgentKit) : ToolParams :=
  {| p_hederaKit := k;
     p_hcs10Builder := {| builder_hederaKit := k;
                          builder_stateManager := stateManagerFor ctx |};
     p_logger := logger ctx |}.

(** The error that stops catalogue construction for the context [ctx]
    carrying the handle [k]: the builder's, else the first tool's. *)
Definition constructionError (w : World) (ctx : GenericPluginContext)
    (k : HederaAgentKit) : option JsError :=
  match failNewHCS10Builder w k (stateManagerFor ctx) with
  | Some e => Some e
  | None => firstThrow w (paramsFor ctx k) expectedCatalogue
  end.

(** The second tool constructor throws. *)
Definition secondToolThrows : World :=
  {| failNewHCS10Builder := fun _ _ => None;
     failNewTool := fun c _ =>
       match c with
       | FindRegistrationsTool => Some (Thrown "schema error")
       | _ => None
       end |}.

Definition otherKitAndLogger : GenericPluginContext :=
  {| config_hederaKit := Some (KitRef 11);
     ctx_stateManager := Some (HostState 8);
     logger := LoggerRef 12 |}.

End PluginTrace.

(* ===================================================================== *)
(** ** What a kit call asks of its collaborators                          *)
(* ===================================================================== *)

Module KitTrace.
Import StandardsKit KitLifecycle.

(** The networks of the mirror nodes constructed. *)
Fixpoint mirrorNodes (evs : list Event) : list string :=
  match evs with
  | [] => []
  | NewHederaMirrorNode nw :: rest => nw :: mirrorNodes rest
  | _ :: rest => mirrorNodes rest
  end.

(** The account lookups made: network and account identifier. *)
Fixpoint lookupCalls (evs : list Event) : list (string * string) :=
  match evs with
  | [] => []
  | RequestAccount nw a :: rest => (nw, a) :: lookupCalls rest
  | _ :: rest => lookupCalls rest
  end.

(** The signers constructed. *)
Fixpoint signersBuilt (evs : list Event) : list ServerSigner :=
  match evs with
  | [] => []
  | NewServerSigner s :: rest => s :: signersBuilt rest
  | _ :: rest => signersBuilt rest
  end.


(** What was passed to [logger.error]. *)
Fixpoint errorLogs (evs : list Event) : list (string * JsError) :=
  match evs with
  | [] => []
  | LoggerError m e :: rest => (m, e) :: errorLogs rest
  | _ :: rest => errorLogs rest
  end.


(** [cfg.pluginConfig.appConfig.stateManager] *)
Definition appStateManagerOf (cfg : HederaConversationalAgentConfig) : option IStateManager :=
  match field "pluginConfig" cfg with
  | Some (PluginConfig _ sm) => Some sm
  | _ => None
  end.

(** [cfg.customSystemMessagePreamble], when it is a string. *)
Definition preambleOf (cfg : HederaConversationalAgentConfig) : option string :=
  match field "customSystemMessagePreamble" cfg with
  | Some (Val (JStr text)) => Some text
  | _ => None
  end.

(** The options of the eight-option revision, read as options of the
    fifteen-option one with nothing else supplied. *)
Definition widen (o : StandardsKitBasic.StandardsKitOptions) : StandardsKitOptions :=
  {| accountId := StandardsKitBasic.accountId o;
     privateKey := StandardsKitBasic.privateKey o;
     network := StandardsKitBasic.network o;
     openAIApiKey := StandardsKitBasic.openAIApiKey o;
     openAIModelName := StandardsKitBasic.openAIModelName o;
     verbose := StandardsKitBasic.verbose o;
     operationalMode := StandardsKitBasic.operationalMode o;
     userAccountId := StandardsKitBasic.userAccountId o;
     customSystemMessagePreamble := None;
     customSystemMessagePostamble := None;
     additionalPlugins := None;
     opt_stateManager := None;
     scheduleUserTransactionsInBytesMode := None;
     mirrorNodeConfig := None;
     disableLogging := None |}.

(** The six ways a run of [initialize] ends, with the state, the calls and
    the completion of each. *)
Inductive InitializeRun (w : World) (k : Kit) : Kit * list Event * Completion unit -> Prop :=
| RunNoCredentials :
    if_truthy (accountId (options k)) = None
    \/ if_truthy (privateKey (options k)) = None ->
    InitializeRun w k (k, [], Throw (Error msg_required))
| RunLookupRejects a pk e :
    if_truthy (accountId (options k)) = Some a ->
    if_truthy (privateKey (options k)) = Some pk ->
    requestAccount w (networkOf k) a = Throw e ->
    InitializeRun w k
      (k, [NewHederaMirrorNode (networkOf k); RequestAccount (networkOf k) a;
           LoggerError msg_failed e], Throw e)
| RunTagThrows a pk info e :
    if_truthy (accountId (options k)) = Some a ->
    if_truthy (privateKey (options k)) = Some pk ->
    requestAccount w (networkOf k) a = Normal info ->
    lowerCaseIncludes (or_else (keyTypeTag info) (JStr "")) "ecdsa" = Throw e ->
    InitializeRun w k
      (k, [NewHederaMirrorNode (networkOf k); RequestAccount (networkOf k) a;
           LoggerError msg_failed e], Throw e)
| RunParserThrows a pk info (ecdsa : bool) e :
    if_truthy (accountId (options k)) = Some a ->
    if_truthy (privateKey (options k)) = Some pk ->
    requestAccount w (networkOf k) a = Normal info ->
    lowerCaseIncludes (or_else (keyTypeTag info) (JStr "")) "ecdsa" = Normal ecdsa ->
    (if ecdsa then failFromStringECDSA w pk else failFromStringED25519 w pk) = Some e ->
    InitializeRun w k
      (k, [NewHederaMirrorNode (networkOf k); RequestAccount (networkOf k) a;
           if ecdsa then FromStringECDSA pk else FromStringED25519 pk;
           LoggerError msg_failed e], Throw e)
| RunAgentBuilt a pk info (ecdsa : bool) cfg c :
    if_truthy (accountId (options k)) = Some a ->
    if_truthy (privateKey (options k)) = Some pk ->
    requestAccount w (networkOf k) a = Normal info ->
    lowerCaseIncludes (or_else (keyTypeTag info) (JStr "")) "ecdsa" = Normal ecdsa ->
    (if ecdsa then failFromStringECDSA w pk else failFromStringED25519 w pk) = None ->
    ConfigFacts w k a cfg ->
    let signer :=
      {| signer_accountId := a;
         signer_key := {| curve := if ecdsa then ECDSA else ED25519; parsedFrom := pk |};
         signer_network := networkOf k |} in
    let agent := {| agent_signer := signer; agent_config := cfg |} in
    agentInitialize w agent = c ->
    InitializeRun w k
      (set_conversationalAgent agent k,
       [NewHederaMirrorNode (networkOf k); RequestAccount (networkOf k) a;
        if ecdsa then FromStringECDSA pk else FromStringED25519 pk;
        NewServerSigner signer; GetAllHederaCorePlugins;
        NewHederaConversationalAgent signer cfg; AgentInitialize agent]
         ++ match c with
            | Normal _ => []
            | Throw e => [LoggerError msg_failed e]
            end,
       c).

(** The calls made before the host agent is constructed (all of them when
    it never is). *)
Fixpoint beforeAgent (evs : list Event) : list Event :=
  match evs with
  | [] => []
  | NewHederaConversationalAgent _ _ :: _ => []
  | e :: rest => e :: beforeAgent rest
  end.

(** The ECDSA parser rejects every string. *)
Definition ecdsaParserThrows : World :=
  {| requestAccount := fun _ _ => Normal (keyRecord (JStr "ECDSA_SECP256K1"));
     failFromStringECDSA := fun _ => Some (Thrown "invalid private key");
     failFromStringED25519 := fun _ => None;
     getAllHederaCorePlugins := [];
     agentInitialize := fun _ => Normal tt;
     agentProcessMessage := fun _ _ _ => Normal sampleResponse |}.

End KitTrace.

(* ===================================================================== *)
(** ** vite.config.ts: the helpers of the build configuration             *)
(* ===================================================================== *)

Module ViteConfig.

(** [type BuildFormat = LibraryFormats].  The value comes from the
    environment through a cast ([process.env.BUILD_FORMAT || 'es') as
    BuildFormat]), so it can be any string. *)
Definition BuildFormat : Type := string.

Definition EXTERNAL_DEPENDENCIES : list string :=
  [ "@hashgraphonline/standards-agent-kit";
    "hedera-agent-kit";
    "@hashgraphonline/standards-sdk";
    "@langchain/core";
    "zod" ].

Definition GLOBAL_MAP : list (string * string) :=
  [ ("@hashgraphonline/standards-agent-kit", "StandardsAgentKit");
    ("hedera-agent-kit", "HederaAgentKit");
    ("@hashgraphonline/standards-sdk", "StandardsSDK");
    ("@langchain/core", "LangchainCore");
    ("zod", "Zod") ].

(** [function getOutputDirectory(format: BuildFormat): string] *)
Definition getOutputDirectory (format : BuildFormat) : string :=
  if format =? "umd" then "dist/umd"
  else if format =? "cjs" then "dist/cjs"
  else "dist/esm".

(** [function getTypesOutputDirectory(format, outputDir): string] *)
Definition getTypesOutputDirectory (format : BuildFormat) (outputDir : string) : string :=
  if format =? "es" then "dist/types" else outputDir.

(** [function getFileName(format): (fmt: string) => string] *)
Definition getFileName (format : BuildFormat) : string -> string :=
  fun fmt =>
    if format =? "umd" then ("standards-agent-plugin." ++ fmt ++ ".js")%string
    else if format =? "cjs" then "index.cjs"
    else "index.js".

(** [EXTERNAL_DEPENDENCIES.some((dep) => id === dep || id.startsWith(`${dep}/`))] *)
Definition isListed (id : string) : bool :=
  existsb (fun dep => (id =? dep) || String.prefix (dep ++ "/")%string id)
          EXTERNAL_DEPENDENCIES.

(** [function isExternalDependency(id: string, format: BuildFormat): boolean];
    [dirname] is the module's [__dirname]. *)
Definition isExternalDependency (dirname : string) (id : string) (format : BuildFormat)
  : bool :=
  if format =? "umd" then isListed id
  else
    let isExternalPackage := isListed id in
    let isRelativeImport :=
      negb (String.prefix "." id) && negb (String.prefix "/" id)
      && negb (includes id dirname) in
    isExternalPackage || isRelativeImport.

(** The property names every object inherits from [Object.prototype]; a
    lookup [GLOBAL_MAP[id]] with one of them finds the inherited value, which
    is truthy. *)
Definition objectPrototypeKeys : list string :=
  [ "constructor"; "__defineGetter__"; "__defineSetter__"; "hasOwnProperty";
    "__lookupGetter__"; "__lookupSetter__"; "isPrototypeOf";
    "propertyIsEnumerable"; "toString"; "valueOf"; "__proto__"; "toLocaleString" ].

(** What [getGlobalName] returns: a string, or for an inherited property
    name the inherited value. *)
Inductive GlobalName : Type :=
| Global (name : string)
| Inherited (key : string).

Fixpoint ownProperty (k : string) (m : list (string * string)) : option string :=
  match m with
  | [] => None
  | (k', v) :: rest => if k' =? k then Some v else ownProperty k rest
  end.

(** [function getGlobalName(id: string): string], [GLOBAL_MAP[id] || id] *)
Definition getGlobalName (id : string) : GlobalName :=
  match ownProperty id GLOBAL_MAP with
  | Some name => if name =? "" then Global id else Global name
  | None =>
      if existsb (String.eqb id) objectPrototypeKeys then Inherited id
      else Global id
  end.

(** A value of the Rollup output options. *)
Inductive OutputValue : Type :=
| OStr (s : string)
| OBool (b : bool)
| OGlobals.                        (* the function [getGlobalName] *)

Fixpoint outputField (k : string) (o : list (string * OutputValue)) : option OutputValue :=
  match o with
  | [] => None
  | (k', v) :: rest => if k' =? k then Some v else outputField k rest
  end.

(** [function createRollupOutput(format: BuildFormat)] *)
Definition createRollupOutput (format : BuildFormat) : list (string * OutputValue) :=
  if format =? "cjs" then
    [ ("exports", OStr "named"); ("format", OStr "cjs") ]
  else
    let output :=
      [ ("globals", OGlobals);
        ("preserveModules", OBool (format =? "es"));
        ("exports", OStr "named");
        ("inlineDynamicImports", OBool (format =? "umd")) ] in
    let output :=
      if format =? "es" then output ++ [("preserveModulesRoot", OStr "src")] else output in
    let output :=
      if format =? "umd" then output ++ [("name", OStr "StandardsAgentPlugin")] else output in
    output.

(** The entry file of a build: Vite writes [lib.fileName(format)] into
    [build.outDir]. *)
Definition entryFile (format : BuildFormat) : string :=
  (getOutputDirectory format ++ "/" ++ getFileName format format)%string.

(** package.json: where the package's entry points are looked for. *)
Definition package_main : string := "./dist/cjs/index.cjs".
Definition package_module : string := "./dist/esm/index.js".
Definition package_browser_require : string := "./dist/umd/standards-agent-plugin.umd.js".
Definition package_types : string := "./dist/types/index.d.ts".

End ViteConfig.

(* ===================================================================== *)
(** ** examples/interactive-demo.ts: loading and selecting an agent       *)
(* ===================================================================== *)

Module InteractiveDemo.
Local Open Scope js_scope.

(** [interface AgentIdentity] *)
Record AgentIdentity : Type := {
  name : string;
  accountId : string;
  privateKey : string;
  inboundTopicId : string;
  outboundTopicId : string;
  profileTopicId : option string
}.

(** [process.env]: a variable holds a string or is not set. *)
Definition Env : Type := string -> option string.

(** The line read from the terminal is the one string whose characters the
    script inspects ([trim], [parseInt]); it is kept as JavaScript sees it,
    one number per UTF-16 code unit. *)
Definition CodeUnits : Type := list N.

(** What the script does to the terminal. *)
Inductive Event : Type :=
| ConsoleLog (line : string)
| CreateInterface
| Question (query : string)
| Close.

Definition Script := M unit Event.

Definition console_log (line : string) : Script unit :=
  call (ConsoleLog line) (Normal tt).

(** [async function loadAgentFromEnv(prefix: string)] *)
Definition loadAgentFromEnv (env : Env) (prefix : string)
  : Script (option AgentIdentity) :=
  let accountId := env (prefix ++ "_ACCOUNT_ID")%string in
  let privateKey := env (prefix ++ "_PRIVATE_KEY")%string in
  let inboundTopicId := env (prefix ++ "_INBOUND_TOPIC_ID")%string in
  let outboundTopicId := env (prefix ++ "_OUTBOUND_TOPIC_ID")%string in
  let profileTopicId := env (prefix ++ "_PROFILE_TOPIC_ID")%string in
  match StandardsKit.if_truthy accountId, StandardsKit.if_truthy privateKey,
        StandardsKit.if_truthy inboundTopicId, StandardsKit.if_truthy outboundTopicId with
  | Some accountId, Some privateKey, Some inboundTopicId, Some outboundTopicId =>
      ret (Some {| name := (prefix ++ " Agent")%string;
                   accountId := accountId;
                   privateKey := privateKey;
                   inboundTopicId := inboundTopicId;
                   outboundTopicId := outboundTopicId;
                   profileTopicId := profileTopicId |})
  | _, _, _, _ =>
      console_log ("Incomplete agent details for prefix " ++ prefix ++ ", skipping.")%string ;;;
      ret None
  end.

(** White space and line terminators, the characters [trim] and [parseInt]
    strip. *)
Definition isWhiteSpace (c : N) : bool :=
  (existsb (N.eqb c)
     [9; 10; 11; 12; 13; 32; 160; 5760; 8232; 8233; 8239; 8287; 12288; 65279]
   || ((8192 <=? c) && (c <=? 8202)))%N.

Fixpoint trimStart (s : CodeUnits) : CodeUnits :=
  match s with
  | c :: rest => if isWhiteSpace c then trimStart rest else s
  | [] => []
  end.

Definition trimEnd (s : CodeUnits) : CodeUnits := rev (trimStart (rev s)).

(** String.prototype.trim *)
Definition trim (s : CodeUnits) : CodeUnits := trimEnd (trimStart s).

(** The value of a character as a digit, if it is a digit or a letter. *)
Definition digitValue (c : N) : option Z :=
  (if (48 <=? c) && (c <=? 57) then Some (Z.of_N c - 48)%Z
   else if (97 <=? c) && (c <=? 122) then Some (Z.of_N c - 87)%Z
   else if (65 <=? c) && (c <=? 90) then Some (Z.of_N c - 55)%Z
   else None)%N.

(** The longest prefix of radix-[R] digits, as digit values. *)
Fixpoint radixDigits (R : Z) (s : CodeUnits) : list Z :=
  match s with
  | c :: rest =>
      match digitValue c with
      | Some d => if (d <? R)%Z then d :: radixDigits R rest else []
      | None => []
      end
  | [] => []
  end.

Definition mathInt (R : Z) (digits : list Z) : Z :=
  fold_left (fun v d => R * v + d)%Z digits 0%Z.

(** A leading [-] or [+]. *)
Definition stripSign (s : CodeUnits) : Z * CodeUnits :=
  match s with
  | c :: rest =>
      if (c =? 45)%N then ((-1)%Z, rest)
      else if (c =? 43)%N then (1%Z, rest)
      else (1%Z, s)
  | [] => (1%Z, s)
  end.

(** A leading [0x] or [0X] makes the radix 16. *)
Definition stripPrefix (s : CodeUnits) : Z * CodeUnits :=
  match s with
  | c0 :: c1 :: rest =>
      if ((c0 =? 48) && ((c1 =? 120) || (c1 =? 88)))%N then (16%Z, rest) else (10%Z, s)
  | _ => (10%Z, s)
  end.

(** [parseInt(string)] without a radix; [None] is NaN.  The result here is
    the exact integer.  JavaScript rounds it to a double, which is the same
    number up to 2^53 and beyond that stays far above every array length,
    so the script's tests [index < 0] and [index >= agents.length] come out
    the same. *)
Definition parseInt (string : CodeUnits) : option Z :=
  let '(sign, s) := stripSign (trimStart string) in
  let '(R, s) := stripPrefix s in
  match radixDigits R s with
  | [] => None
  | digits => Some (sign * mathInt R digits)%Z
  end.

(** The decimal digits of [n], most significant first, in front of [acc]. *)
Fixpoint digitsOf (fuel n : nat) (acc : CodeUnits) : CodeUnits :=
  match fuel with
  | O => acc
  | S fuel' =>
      let acc' := N.of_nat (48 + n mod 10) :: acc in
      if (n / 10 =? 0)%nat then acc' else digitsOf fuel' (n / 10) acc'
  end.

(** Number::toString of a natural number: its decimal numeral. *)
Definition decimal (n : nat) : CodeUnits := digitsOf (S n) n [].

Fixpoint fromCodeUnits (s : CodeUnits) : string :=
  match s with
  | [] => EmptyString
  | c :: rest => String (ascii_of_N c) (fromCodeUnits rest)
  end.

(** [`${n}`] *)
Definition toString (n : nat) : string := fromCodeUnits (decimal n).

(** The line of the listing for [agent] at position [index]. *)
Definition listingLine (index : nat) (agent : AgentIdentity) : string :=
  (toString (index + 1) ++ ". " ++ name agent ++ " (" ++ accountId agent ++ ")")%string.

(** [agents.forEach((agent, index) => console.log(...))], from [index] on. *)
Fixpoint listAgents (index : nat) (agents : list AgentIdentity) : Script unit :=
  match agents with
  | [] => ret tt
  | agent :: rest =>
      console_log (listingLine index agent) ;;;
      listAgents (S index) rest
  end.

Definition query : string :=
  "Select agent number (or press Enter to use first agent): ".

(** [async function promptUserToSelectAgent(agents)]; [answer] is the line
    the user enters when asked.  [None] is the result [null]. *)
Definition promptUserToSelectAgent (answer : CodeUnits) (agents : list AgentIdentity)
  : Script (option AgentIdentity) :=
  match agents with
  | [] =>
      console_log "No agents available. Please register a new agent first." ;;;
      ret None
  | [only] =>
      console_log ("Auto-selecting the only available agent: " ++ name only)%string ;;;
      ret (Some only)
  | first :: _ =>
      console_log (StandardsKit.nl ++ "Available agents:")%string ;;;
      listAgents 0 agents ;;;
      call CreateInterface (Normal tt) ;;;
      choice <- call (Question query) (Normal answer) ;;
      call Close (Normal tt) ;;;
      match trim choice with
      | [] =>
          console_log ("Defaulting to first agent: " ++ name first)%string ;;;
          ret (Some first)
      | _ =>
          let invalid :=
            console_log ("Invalid choice. Defaulting to first agent: " ++ name first)%string ;;;
            ret (Some first) in
          match parseInt choice with
          | None => invalid
          | Some n =>
              let index := (n - 1)%Z in
              if ((index <? 0) || (index >=? Z.of_nat (length agents)))%Z then invalid
              else ret (nth_error agents (Z.to_nat index))
          end
      end
  end.

(** The numbered lines [listAgents] writes. *)
Fixpoint listing (index : nat) (agents : list AgentIdentity) : list string :=
  match agents with
  | [] => []
  | agent :: rest => listingLine index agent :: listing (S index) rest
  end.

(** The lines written to the console, and what was done to the terminal
    besides. *)
Definition logged (evs : list Event) : list string :=
  flat_map (fun e => match e with ConsoleLog l => [l] | _ => [] end) evs.


Definition isDecimalDigit (c : N) : bool := ((48 <=? c) && (c <=? 57))%N.

Definition startsWithDigit (s : CodeUnits) : bool :=
  match s with
  | c :: _ => isDecimalDigit c
  | [] => false
  end.

(** The value of a decimal digit. *)
Definition digitOf (c : N) : Z := (Z.of_N c - 48)%Z.

(** What the script does before it looks at the answer, given two agents or
    more. *)
Definition asking (agents : list AgentIdentity) : list Event :=
  ConsoleLog (StandardsKit.nl ++ "Available agents:")%string
    :: map ConsoleLog (listing 0 agents) ++ [CreateInterface; Question query; Close].

(** The options the script builds its kit from:
    [new StandardsKit({ accountId: selectedAccountId, privateKey:
    selectedPrivateKey, network: networkType, openAIApiKey: openaiApiKey,
    openAIModelName: 'gpt-4o' })]. *)
Definition kitOptions (selectedAccountId selectedPrivateKey networkType openaiApiKey : string)
  : StandardsKit.StandardsKitOptions :=
  {| StandardsKit.accountId := Some selectedAccountId;
     StandardsKit.privateKey := Some selectedPrivateKey;
     StandardsKit.network := Some networkType;
     StandardsKit.openAIApiKey := openaiApiKey;
     StandardsKit.openAIModelName := Some "gpt-4o";
     StandardsKit.verbose := None;
     StandardsKit.operationalMode := None;
     StandardsKit.userAccountId := None;
     StandardsKit.customSystemMessagePreamble := None;
     StandardsKit.customSystemMessagePostamble := None;
     StandardsKit.additionalPlugins := None;
     StandardsKit.opt_stateManager := None;
     StandardsKit.scheduleUserTransactionsInBytesMode := None;
     StandardsKit.mirrorNodeConfig := None;
     StandardsKit.disableLogging := None |}.

(** Sample data. *)
Definition agentOf (prefix account : string) : AgentIdentity :=
  {| name := (prefix ++ " Agent")%string;
     accountId := account;
     privateKey := "mock-private-key";
     inboundTopicId := "0.0.7001";
     outboundTopicId := "0.0.7002";
     profileTopicId := None |}.

Definition threeAgents : list AgentIdentity :=
  [agentOf "TODD" "0.0.5001"; agentOf "ALICE" "0.0.5002"; agentOf "BOB" "0.0.5003"].

Definition toddEnv : Env :=
  fun variable =>
    if variable =? "TODD_ACCOUNT_ID" then Some "0.0.5001"
    else if variable =? "TODD_PRIVATE_KEY" then Some "mock-private-key"
    else if variable =? "TODD_INBOUND_TOPIC_ID" then Some "0.0.7001"
    else if variable =? "TODD_OUTBOUND_TOPIC_ID" then Some "0.0.7002"
    else None.

End InteractiveDemo.

(* ===================================================================== *)
(** ** Properties of OpenConvAIPlugin                                     *)
(* ===================================================================== *)

Section PluginProperties.
Import OpenConvAIPlugin PluginLifecycle.

Lemma succeeded_app evs1 evs2 :
  succeeded (evs1 ++ evs2) = succeeded evs1 || succeeded evs2.
Proof. unfold succeeded. apply existsb_app. Qed.

Lemma constructions_not_success evs :
  Forall isConstruction evs -> succeeded evs = false.
Proof.
  induction 1 as [|e evs He _ IH]; [reflexivity|].
  destruct e; simpl in He; try contradiction; exact IH.
Qed.

Lemma builderCalls_app evs1 evs2 :
  builderCalls (evs1 ++ evs2) = builderCalls evs1 ++ builderCalls evs2.
Proof.
  induction evs1 as [|e evs1 IH]; [reflexivity|].
  destruct e; simpl; rewrite ?IH; reflexivity.
Qed.




(** With the state manager and the context in place, [initializeTools]
    either stops at the first constructor that throws, leaving the plugin
    untouched, or stores the eleven tools built around one builder. *)
Lemma initializeTools_cases w p ctx sm k :
  context p = Some ctx ->
  stateManager p = Some sm ->
  config_hederaKit ctx = Some k ->
  let b := {| builder_hederaKit := k; builder_stateManager := sm |} in
  let ps := {| p_hederaKit := k; p_hcs10Builder := b; p_logger := logger ctx |} in
  (exists e evs,
      initializeTools w p = (p, NewHCS10Builder k sm :: evs, Throw e)
      /\ Forall isConstruction evs)
  \/ initializeTools w p =
       (set_tools (map (fun c => {| tool_class := c; tool_params := ps |}) expectedCatalogue) p,
        NewHCS10Builder k sm :: map (fun c => NewTool c ps) expectedCatalogue,
        Normal tt).
Proof.
  intros Hc Hs Hk b ps.
  unfold initializeTools.
  unfold bind, call, modify, get, ret, throw, newTool, this_context, built; cbn.
  rewrite Hs, Hc. cbn. rewrite Hk.
  destruct (failNewHCS10Builder w k sm) as [e|].
  { left. exists e, []. split; [reflexivity | constructor]. }
  repeat (rewrite ?Hc; cbn;
          match goal with
          | |- context [failNewTool w ?c ?q] =>
              destruct (failNewTool w c q) as [e|];
              [ left; exists e; eexists; split; [reflexivity | repeat constructor] | ]
          end).
  right. reflexivity.
Qed.

(** The two ways [initialize] ends when the context carries an agent-kit
    handle. *)
Lemma initialize_with_kit w ctx p k :
  config_hederaKit ctx = Some k ->
  let sm := stateManagerFor ctx in
  let p1 := set_stateManager (Some sm) (set_context ctx p) in
  let pre := match ctx_stateManager ctx with Some _ => [] | None => [NewOpenConvaiState] end in
  let b := {| builder_hederaKit := k; builder_stateManager := sm |} in
  let ps := {| p_hederaKit := k; p_hcs10Builder := b; p_logger := logger ctx |} in
  (exists e evs,
      initializeTools w p1 = (p1, NewHCS10Builder k sm :: evs, Throw e)
      /\ Forall isConstruction evs
      /\ initialize w ctx p =
           (p1, SuperInitialize ctx :: pre ++ (NewHCS10Builder k sm :: evs)
                  ++ [LoggerError (logger ctx) msg_failed e], Normal tt))
  \/ (initializeTools w p1 =
        (set_tools (map (fun c => {| tool_class := c; tool_params := ps |}) expectedCatalogue) p1,
         NewHCS10Builder k sm :: map (fun c => NewTool c ps) expectedCatalogue, Normal tt)
      /\ initialize w ctx p =
        (set_tools (map (fun c => {| tool_class := c; tool_params := ps |}) expectedCatalogue) p1,
         SuperInitialize ctx :: pre
           ++ (NewHCS10Builder k sm :: map (fun c => NewTool c ps) expectedCatalogue)
           ++ [LoggerInfo (logger ctx) msg_initialized], Normal tt)).
Proof.
  intros Hk sm p1 pre b ps.
  assert (Hc : context p1 = Some ctx) by reflexivity.
  assert (Hs : stateManager p1 = Some sm) by reflexivity.
  destruct (@initializeTools_cases w p1 ctx sm k Hc Hs Hk) as [(e & evs & Ht & Hevs) | Ht].
  - left. exists e, evs. split; [exact Ht|]. split; [exact Hevs|].
    unfold initialize. rewrite Hk.
    unfold try_catch, bind, super_initialize, this_context, call, modify, get, ret.
    subst p1 sm pre. unfold stateManagerFor in *.
    destruct (ctx_stateManager ctx); cbn -[initializeTools]; rewrite Ht; cbn;
      rewrite <- ?app_assoc; reflexivity.
  - right. split; [exact Ht|].
    unfold initialize. rewrite Hk.
    unfold try_catch, bind, super_initialize, this_context, call, modify, get, ret.
    subst p1 sm pre b ps. unfold stateManagerFor in *.
    destruct (ctx_stateManager ctx); cbn -[initializeTools]; rewrite Ht; reflexivity.
Qed.

(** When no constructor throws and the context carries an agent-kit handle,
    [initialize] succeeds. *)
Lemma initialize_succeeds w ctx p k :
  config_hederaKit ctx = Some k ->
  (forall sm, failNewHCS10Builder w k sm = None) ->
  (forall c ps, failNewTool w c ps = None) ->
  succeeded (eventsOf (initialize w ctx p)) = true.
Proof.
  intros Hk Hb Ht.
  destruct (@initialize_with_kit w ctx p k Hk) as [(e & evs & Hi & _ & _) | [_ Hi]].
  - exfalso. revert Hi.
    unfold initializeTools, bind, call, modify, get, ret, throw, newTool, this_context, built.
    cbn. rewrite Hk, Hb. cbn. rewrite !Ht. discriminate.
  - rewrite Hi. unfold eventsOf. cbn [fst snd].
    change (SuperInitialize ctx :: ?l) with ([SuperInitialize ctx] ++ l).
    rewrite !succeeded_app. rewrite !orb_true_iff. right. right. right. reflexivity.
Qed.

Lemma initialize_without_kit w ctx p :
  config_hederaKit ctx = None ->
  initialize w ctx p =
    (set_context ctx p,
     [SuperInitialize ctx; LoggerWarn (logger ctx) msg_no_kit],
     Normal tt).
Proof. intros Hk. unfold initialize. rewrite Hk. reflexivity. Qed.

Lemma succeeded_pre ctx :
  succeeded (match ctx_stateManager ctx with
             | Some _ => []
             | None => [NewOpenConvaiState]
             end) = false.
Proof. destruct (ctx_stateManager ctx); reflexivity. Qed.

(** A call that does not log success leaves the catalogue as it was. *)
Lemma initialize_keeps_tools w ctx p :
  succeeded (eventsOf (initialize w ctx p)) = false ->
  tools (stateOf (initialize w ctx p)) = tools p.
Proof.
  intros Hs. destruct (config_hederaKit ctx) as [k|] eqn:Hk.
  - destruct (@initialize_with_kit w ctx p k Hk) as [(e & evs & _ & _ & Hi) | [_ Hi]];
      rewrite Hi in *; [reflexivity|].
    exfalso. unfold eventsOf in Hs. cbn [fst snd] in Hs.
    change (SuperInitialize ctx :: ?l) with ([SuperInitialize ctx] ++ l) in Hs.
    rewrite !succeeded_app in Hs.
    rewrite !orb_false_iff in Hs. destruct Hs as (_ & _ & _ & Hs). discriminate Hs.
  - rewrite (@initialize_without_kit w ctx p Hk). reflexivity.
Qed.


Lemma cleanup_state p :
  stateOf (cleanup p) =
    {| context := context p; stateManager := None; tools := [] |}.
Proof. destruct p as [[c|] s t]; reflexivity. Qed.

Lemma step_keeps_invariant c p r :
  (r = false -> tools p = []) ->
  match c with
  | Initialize w ctx => r || succeeded (eventsOf (initialize w ctx p))
  | Cleanup => false
  | _ => r
  end = false ->
  tools (step c p) = [].
Proof.
  intros Hinv Hr. destruct c as [w ctx| | |]; simpl.
  - apply orb_false_iff in Hr. destruct Hr as [Hr Hs].
    rewrite (initialize_keeps_tools _ _ _ Hs). auto.
  - auto.
  - auto.
  - rewrite cleanup_state. reflexivity.
Qed.

Lemma not_ready_no_tools calls :
  forall p r,
    (r = false -> tools p = []) ->
    ready calls p r = false ->
    tools (run calls p) = [].
Proof.
  induction calls as [|c rest IH]; intros p r Hinv Hr; simpl in *.
  - auto.
  - apply IH with (r := match c with
                        | Initialize w ctx => r || succeeded (eventsOf (initialize w ctx p))
                        | Cleanup => false
                        | _ => r
                        end); [|exact Hr].
    intros Hr'. apply step_keeps_invariant with (r := r); assumption.
Qed.

Lemma ready_without_initialize calls :
  forall p, forallb (fun c => negb (isInitialize c)) calls = true ->
            ready calls p false = false.
Proof.
  induction calls as [|c rest IH]; intros p Hc; simpl in *; [reflexivity|].
  apply andb_true_iff in Hc. destruct Hc as [Hc Hrest].
  destruct c; simpl in *; try discriminate; apply IH; assumption.
Qed.

Lemma getStateManager_run calls :
  forall p, getStateManager (run calls p) = chosenStateManager calls (getStateManager p).
Proof.
  induction calls as [|c rest IH]; intros p; simpl; [reflexivity|].
  rewrite IH. destruct c as [w ctx| | |]; simpl; try reflexivity.
  - destruct (config_hederaKit ctx) as [k|] eqn:Hk.
    + destruct (@initialize_with_kit w ctx p k Hk) as [(e & evs & _ & _ & Hi) | [_ Hi]];
        rewrite Hi; reflexivity.
    + rewrite (@initialize_without_kit w ctx p Hk). reflexivity.
  - rewrite cleanup_state. reflexivity.
Qed.




(** C8.  [getTools] returns the empty sequence in every state in which no
    [initialize] has succeeded since construction or since the last
    [cleanup]; after [cleanup] every later [getTools] call is empty as long
    as [initialize] is not called again; and [cleanup] releases the
    state-manager reference. *)
Theorem getTools_empty_unless_initialized :
  (forall calls, ready calls new false = false -> getTools (run calls new) = [])
  /\ (forall p calls,
        forallb (fun c => negb (isInitialize c)) calls = true ->
        getTools (run (Cleanup :: calls) p) = [])
  /\ (forall p, getStateManager (stateOf (cleanup p)) = None).
Proof.
  split; [|split].
  - intros calls Hr. apply not_ready_no_tools with (r := false); auto.
  - intros p calls Hc. simpl.
    apply not_ready_no_tools with (r := false).
    + intros _. rewrite cleanup_state. reflexivity.
    + apply ready_without_initialize. exact Hc.
  - intros p. rewrite cleanup_state. reflexivity.
Qed.

Lemma getTools_empty_unless_initialized_witness :
  getTools (run [Initialize builderThrows withKit; Initialize constructsAll withoutKit;
                 GetTools] new) = []
  /\ getTools (run (Cleanup :: [GetTools; GetStateManager; GetTools])
                   (run [Initialize constructsAll withKit] new)) = [].
Proof.
  destruct getTools_empty_unless_initialized as (H1 & H2 & _).
  split.
  - apply (H1 [Initialize builderThrows withKit; Initialize constructsAll withoutKit;
               GetTools]). reflexivity.
  - apply (H2 (run [Initialize constructsAll withKit] new)
              [GetTools; GetStateManager; GetTools]). reflexivity.
Defined.



(** C10 (as stated, refuted).  An [initialize] whose catalogue construction
    throws has not succeeded, yet it has already stored the state manager:
    [getStateManager] does not return undefined afterwards. *)
Lemma getStateManager_defined_after_failed_initialize :
  ready [Initialize builderThrows withKit] new false = false
  /\ ~ (getStateManager (run [Initialize builderThrows withKit] new) = None).
Proof. split; [reflexivity | discriminate]. Qed.

(** C10 (amended).  [getStateManager] never throws; it returns undefined as
    long as no [initialize] has been given an agent-kit handle since
    construction or the last [cleanup], and otherwise the state manager
    chosen by the last such [initialize], whether or not its catalogue
    construction succeeded: the context-supplied one if present, otherwise
    the freshly constructed default. *)
Theorem getStateManager_after_calls calls :
  getStateManager (run calls new) = chosenStateManager calls None.
Proof. apply getStateManager_run. Qed.

End PluginProperties.

(* ===================================================================== *)
(** ** Strings: [includes] after [toLowerCase]                            *)
(* ===================================================================== *)

Section StringFacts.
Import KitLifecycle.

Lemma prefix_app n :
  forall s, String.prefix n s = true <-> exists post, s = (n ++ post)%string.
Proof.
  induction n as [|c n IH]; intros s.
  - split; [intros _; exists s; reflexivity | intros _; destruct s; reflexivity].
  - destruct s as [|d s]; simpl.
    + split; [discriminate | intros [post H]; discriminate H].
    + destruct (Ascii.ascii_dec c d) as [->|Hne].
      * rewrite IH. split; intros [post H]; exists post;
          [rewrite H; reflexivity | injection H as H; exact H].
      * split; [discriminate | intros [post H]; injection H as H1 H2; congruence].
Qed.

Lemma includes_app s n :
  includes s n = true <-> exists pre post, s = (pre ++ n ++ post)%string.
Proof.
  induction s as [|c s IH]; cbn [includes].
  - rewrite orb_false_r, prefix_app. split.
    + intros [post H]. exists "", post. exact H.
    + intros (pre & post & H).
      destruct pre; simpl in H; [exists post; exact H | discriminate H].
  - rewrite orb_true_iff, prefix_app, IH. split.
    + intros [[post H] | (pre & post & H)].
      * exists "", post. exact H.
      * exists (String c pre), post. simpl. rewrite H. reflexivity.
    + intros (pre & post & H). destruct pre as [|d pre]; simpl in H.
      * left. exists post. exact H.
      * right. injection H as _ H. exists pre, post. exact H.
Qed.

Lemma toLowerCase_app s t :
  toLowerCase (s ++ t) = (toLowerCase s ++ toLowerCase t)%string.
Proof. induction s as [|c s IH]; simpl; [reflexivity | rewrite IH; reflexivity]. Qed.

Lemma toLowerCase_split s :
  forall x y,
    toLowerCase s = (x ++ y)%string ->
    exists s1 s2, s = (s1 ++ s2)%string /\ toLowerCase s1 = x /\ toLowerCase s2 = y.
Proof.
  induction s as [|c s IH]; intros x y H; simpl in H.
  - destruct x; simpl in H; [|discriminate H].
    exists "", "". simpl. rewrite <- H. auto.
  - destruct x as [|d x]; simpl in H.
    + exists "", (String c s). simpl. rewrite <- H. auto.
    + injection H as Hd H. destruct (IH _ _ H) as (s1 & s2 & -> & H1 & H2).
      exists (String c s1), s2. simpl. rewrite Hd, H1. auto.
Qed.

Ltac both_cases :=
  let c := fresh "c" in
  let H := fresh "H" in
  intros c; split;
  [ destruct c as [[] [] [] [] [] [] [] []]; cbv; intros H; try discriminate H; auto
  | intros [->| ->]; reflexivity ].

Lemma toLowerChar_e : forall c, toLowerChar c = "e"%char <-> letter "e" "E" c.
Proof. both_cases. Qed.

Lemma toLowerChar_c : forall c, toLowerChar c = "c"%char <-> letter "c" "C" c.
Proof. both_cases. Qed.

Lemma toLowerChar_d : forall c, toLowerChar c = "d"%char <-> letter "d" "D" c.
Proof. both_cases. Qed.

Lemma toLowerChar_s : forall c, toLowerChar c = "s"%char <-> letter "s" "S" c.
Proof. both_cases. Qed.

Lemma toLowerChar_a : forall c, toLowerChar c = "a"%char <-> letter "a" "A" c.
Proof. both_cases. Qed.

Lemma toLowerCase_ecdsa mid : toLowerCase mid = "ecdsa" <-> spellsEcdsa mid.
Proof.
  split.
  - intros H.
    destruct mid as [|c1 [|c2 [|c3 [|c4 [|c5 [|c6 rest]]]]]]; simpl in H;
      try discriminate H.
    injection H as H1 H2 H3 H4 H5.
    exists c1, c2, c3, c4, c5. split; [reflexivity|].
    rewrite <- toLowerChar_e, <- toLowerChar_c, <- toLowerChar_d,
            <- toLowerChar_s, <- toLowerChar_a. auto.
  - intros (c1 & c2 & c3 & c4 & c5 & -> & H1 & H2 & H3 & H4 & H5).
    apply toLowerChar_e in H1. apply toLowerChar_c in H2. apply toLowerChar_d in H3.
    apply toLowerChar_s in H4. apply toLowerChar_a in H5.
    simpl. rewrite H1, H2, H3, H4, H5. reflexivity.
Qed.

(** The test the code performs is the case-insensitive substring test. *)
Lemma includes_ecdsa_any_case tag :
  includes (toLowerCase tag) "ecdsa" = true <-> containsEcdsaAnyCase tag.
Proof.
  rewrite includes_app. split.
  - intros (pre & post & H).
    destruct (toLowerCase_split _ _ _ H) as (s1 & s23 & -> & _ & H23).
    destruct (toLowerCase_split _ _ _ H23) as (s2 & s3 & -> & H2 & _).
    exists s1, s2, s3. split; [reflexivity|]. apply toLowerCase_ecdsa. exact H2.
  - intros (pre & mid & post & -> & Hmid).
    exists (toLowerCase pre), (toLowerCase post).
    rewrite !toLowerCase_app. apply toLowerCase_ecdsa in Hmid. rewrite Hmid. reflexivity.
Qed.

Lemma empty_has_no_ecdsa : ~ containsEcdsaAnyCase "".
Proof. rewrite <- includes_ecdsa_any_case. discriminate. Qed.

End StringFacts.

(* ===================================================================== *)
(** ** Properties of StandardsKit                                         *)
(* ===================================================================== *)

Section KitProperties.
Import StandardsKit KitLifecycle.

Lemma field_app key (c1 c2 : HederaConversationalAgentConfig) :
  field key (c1 ++ c2) =
    match field key c1 with
    | Some v => Some v
    | None => field key c2
    end.
Proof.
  induction c1 as [|[k' v] c1 IH]; simpl; [reflexivity|].
  destruct (k' =? key); [reflexivity | exact IH].
Qed.

Lemma field_spread key key' x :
  field key (spread_if_defined key' x) =
    if key' =? key then option_map Val x else None.
Proof. destruct x; simpl; [|destruct (key' =? key)]; reflexivity. Qed.

Ltac config_facts k :=
  unfold ConfigFacts, getPlugin, getStateManager;
  repeat split; rewrite ?field_app, ?field_spread;
  first
    [ reflexivity
    | destruct (customSystemMessagePreamble (options k)) as [[|c s]|]; reflexivity
    | destruct (customSystemMessagePostamble (options k)); reflexivity
    | destruct (scheduleUserTransactionsInBytesMode (options k)); reflexivity
    | destruct (mirrorNodeConfig (options k)); reflexivity
    | destruct (disableLogging (options k)); reflexivity ].

Ltac pick_config :=
  match goal with
  | |- exists cfg, _ /\ ?lhs = _ =>
      match lhs with
      | context [NewHederaConversationalAgent _ ?c] => exists c
      end
  end.

(** Every way [initialize] can run once the credentials are in place. *)
Lemma initialize_cases w k a pk :
  if_truthy (accountId (options k)) = Some a ->
  if_truthy (privateKey (options k)) = Some pk ->
  let nw := networkOf k in
  match requestAccount w nw a with
  | Throw e =>
      initialize w k =
        (k, [NewHederaMirrorNode nw; RequestAccount nw a; LoggerError msg_failed e], Throw e)
  | Normal info =>
      match lowerCaseIncludes (or_else (keyTypeTag info) (JStr "")) "ecdsa" with
      | Throw e =>
          initialize w k =
            (k, [NewHederaMirrorNode nw; RequestAccount nw a; LoggerError msg_failed e],
             Throw e)
      | Normal ecdsa =>
          let parse := if ecdsa then FromStringECDSA pk else FromStringED25519 pk in
          match (if ecdsa then failFromStringECDSA w pk else failFromStringED25519 w pk) with
          | Some e =>
              initialize w k =
                (k, [NewHederaMirrorNode nw; RequestAccount nw a; parse;
                     LoggerError msg_failed e], Throw e)
          | None =>
              exists cfg,
                let signer :=
                  {| signer_accountId := a;
                     signer_key := {| curve := if ecdsa then ECDSA else ED25519;
                                      parsedFrom := pk |};
                     signer_network := nw |} in
                let agent := {| agent_signer := signer; agent_config := cfg |} in
                ConfigFacts w k a cfg
                /\ initialize w k =
                     (set_conversationalAgent agent k,
                      [NewHederaMirrorNode nw; RequestAccount nw a; parse;
                       NewServerSigner signer; GetAllHederaCorePlugins;
                       NewHederaConversationalAgent signer cfg; AgentInitialize agent]
                        ++ match agentInitialize w agent with
                           | Normal _ => []
                           | Throw e => [LoggerError msg_failed e]
                           end,
                      agentInitialize w agent)
          end
      end
  end.
Proof.
  intros Ha Hpk nw. subst nw. unfold networkOf, keyTypeTag.
  unfold initialize, bind, get, try_catch, call, lift, modify, throw, ret.
  rewrite Ha, Hpk.
  destruct (requestAccount w _ a) as [info|e]; [|reflexivity].
  destruct (lowerCaseIncludes _ "ecdsa") as [ecdsa|e]; [|reflexivity].
  destruct ecdsa; unfold built.
  - destruct (failFromStringECDSA w pk) as [e|]; [reflexivity|].
    cbn -[app spread_if_defined defaultSystemMessage or_else].
    pick_config. split; [config_facts k|].
    match goal with
    | |- context [agentInitialize w ?ag] => destruct (agentInitialize w ag) as [[]|e]
    end; reflexivity.
  - destruct (failFromStringED25519 w pk) as [e|]; [reflexivity|].
    cbn -[app spread_if_defined defaultSystemMessage or_else].
    pick_config. split; [config_facts k|].
    match goal with
    | |- context [agentInitialize w ?ag] => destruct (agentInitialize w ag) as [[]|e]
    end; reflexivity.
Qed.

Lemma initialize_without_credentials w k :
  if_truthy (accountId (options k)) = None \/ if_truthy (privateKey (options k)) = None ->
  initialize w k = (k, [], Throw (Error msg_required)).
Proof.
  intros H. unfold initialize, bind, get, throw.
  destruct (if_truthy (accountId (options k))), (if_truthy (privateKey (options k)));
    destruct H as [H|H]; try discriminate H; reflexivity.
Qed.

Lemma if_truthy_some x s : x = Some s -> s <> "" -> if_truthy x = Some s.
Proof.
  intros -> Hs. unfold if_truthy.
  destruct (String.eqb_spec s ""); [contradiction | reflexivity].
Qed.

Lemma if_truthy_none x : x = None \/ x = Some "" -> if_truthy x = None.
Proof. intros [->| ->]; reflexivity. Qed.

Lemma if_truthy_cases x : if_truthy x = None \/ exists s, if_truthy x = Some s.
Proof. destruct (if_truthy x) as [s|]; [right; exists s|left]; reflexivity. Qed.

(** The configuration reaches the host agent on one path only, and there it
    is the object literal. *)
Lemma assembled_config_facts w k cfg :
  assembledConfig (eventsOf (initialize w k)) = Some cfg ->
  exists a, if_truthy (accountId (options k)) = Some a /\ ConfigFacts w k a cfg.
Proof.
  intros H.
  destruct (if_truthy_cases (accountId (options k))) as [Ha | [a Ha]].
  { rewrite initialize_without_credentials in H by (left; exact Ha). discriminate H. }
  destruct (if_truthy_cases (privateKey (options k))) as [Hp | [pk Hp]].
  { rewrite initialize_without_credentials in H by (right; exact Hp). discriminate H. }
  exists a. split; [exact Ha|].
  pose proof (initialize_cases w k Ha Hp) as Hc. cbv zeta in Hc.
  destruct (requestAccount w (networkOf k) a) as [info|e].
  2:{ rewrite Hc in H. discriminate H. }
  destruct (lowerCaseIncludes _ "ecdsa") as [ecdsa|e].
  2:{ rewrite Hc in H. discriminate H. }
  destruct (if ecdsa then failFromStringECDSA w pk else failFromStringED25519 w pk) as [e|].
  { rewrite Hc in H. destruct ecdsa; discriminate H. }
  destruct Hc as (cfg' & Hfacts & Hi). rewrite Hi in H.
  unfold eventsOf in H. cbn [fst snd app] in H.
  destruct ecdsa; cbn in H; injection H as <-; exact Hfacts.
Qed.


(** Which parser is called, by the outcome of the tag test. *)
Lemma parser_by_tag w k a pk info :
  if_truthy (accountId (options k)) = Some a ->
  if_truthy (privateKey (options k)) = Some pk ->
  requestAccount w (networkOf k) a = Normal info ->
  match lowerCaseIncludes (or_else (keyTypeTag info) (JStr "")) "ecdsa" with
  | Throw e =>
      parserCalls (eventsOf (initialize w k)) = []
      /\ completionOf (initialize w k) = Throw e
  | Normal true => parserCalls (eventsOf (initialize w k)) = [FromStringECDSA pk]
  | Normal false => parserCalls (eventsOf (initialize w k)) = [FromStringED25519 pk]
  end.
Proof.
  intros Ha Hp Hr.
  pose proof (initialize_cases w k Ha Hp) as Hc. cbv zeta in Hc. rewrite Hr in Hc.
  destruct (lowerCaseIncludes _ "ecdsa") as [ecdsa|e].
  2:{ rewrite Hc. split; reflexivity. }
  destruct (if ecdsa then failFromStringECDSA w pk else failFromStringED25519 w pk) as [e|].
  { rewrite Hc. destruct ecdsa; reflexivity. }
  destruct Hc as (cfg & _ & Hi). rewrite Hi. unfold eventsOf. cbn [fst snd].
  match goal with
  | |- context [agentInitialize w ?ag] => destruct (agentInitialize w ag) as [[]|e]
  end; destruct ecdsa; reflexivity.
Qed.

Lemma contains_ecdsa_nonempty s : containsEcdsaAnyCase s -> s <> "".
Proof. intros H ->. exact (empty_has_no_ecdsa H). Qed.

(** C1 (as stated, refuted).  A record whose tag is the number 42 does not
    contain "ecdsa", yet the ED25519 parser is not invoked: the tag has no
    [toLowerCase] method and [initialize] rejects with a TypeError. *)
Lemma non_string_tag_reaches_no_parser :
  let info := keyRecord (JNum 42) in
  let r := initialize (mirrorReturns info) (new sampleOptions 0) in
  ~ (exists s, keyTypeTag info = JStr s /\ containsEcdsaAnyCase s)
  /\ ~ In (FromStringED25519 "mock-private-key") (eventsOf r)
  /\ parserCalls (eventsOf r) = []
  /\ exists message, completionOf r = Throw (TypeError message).
Proof.
  cbv zeta. split; [|split; [|split]].
  - intros (s & Hs & _). discriminate Hs.
  - cbn. intuition discriminate.
  - reflexivity.
  - eexists. reflexivity.
Qed.

(** The tag test decides the parser, whatever run produced the events. *)
Lemma parser_follows_tag pk info evs c :
  match lowerCaseIncludes (or_else (keyTypeTag info) (JStr "")) "ecdsa" with
  | Throw e => parserCalls evs = [] /\ c = Throw e
  | Normal true => parserCalls evs = [FromStringECDSA pk]
  | Normal false => parserCalls evs = [FromStringED25519 pk]
  end ->
  ParserFollowsTag pk info evs c.
Proof.
  intros H. unfold ParserFollowsTag. cbv zeta.
  assert (Hfalsy : truthy (keyTypeTag info) = false ->
                   parserCalls evs = [FromStringED25519 pk]).
  { intros Ht. unfold or_else in H. rewrite Ht in H. exact H. }
  split; [|split; [|split; [|split]]].
  - intros s Hs Hc. rewrite Hs in H.
    unfold or_else in H. cbn [truthy] in H.
    destruct (s =? "") eqn:Hempty.
    { apply String.eqb_eq in Hempty. subst s. exfalso. exact (empty_has_no_ecdsa Hc). }
    cbn [negb lowerCaseIncludes] in H.
    apply includes_ecdsa_any_case in Hc. rewrite Hc in H. exact H.
  - exact Hfalsy.
  - intros Hcase. apply Hfalsy.
    destruct Hcase as [->|[->|[Hk|Ht]]]; try reflexivity.
    + unfold keyTypeTag. rewrite Hk. reflexivity.
    + rewrite Ht. reflexivity.
  - intros s Hs Hc. rewrite Hs in H.
    unfold or_else in H. cbn [truthy] in H.
    destruct (s =? "") eqn:Hempty; [exact H|].
    cbn [negb lowerCaseIncludes] in H.
    destruct (includes (toLowerCase s) "ecdsa") eqn:Hi; [|exact H].
    exfalso. apply Hc. apply includes_ecdsa_any_case. exact Hi.
  - intros Ht Hns. unfold or_else in H. rewrite Ht in H.
    destruct (keyTypeTag info) as [| |b|n|s|props];
      try discriminate Ht;
      try (destruct H as [Hcalls Hc]; split; [exact Hcalls | eexists; exact Hc]).
    exfalso. exact (Hns s eq_refl).
Qed.

(** The revision with eight options: the same guard and the same parser
    selection. *)
Lemma basic_initialize_without_credentials w k :
  if_truthy (StandardsKitBasic.accountId (StandardsKitBasic.options k)) = None
  \/ if_truthy (StandardsKitBasic.privateKey (StandardsKitBasic.options k)) = None ->
  StandardsKitBasic.initialize w k = (k, [], Throw (Error msg_required)).
Proof.
  intros H. unfold StandardsKitBasic.initialize, bind, get, throw.
  destruct (if_truthy (StandardsKitBasic.accountId (StandardsKitBasic.options k))),
           (if_truthy (StandardsKitBasic.privateKey (StandardsKitBasic.options k)));
    destruct H as [H|H]; try discriminate H; reflexivity.
Qed.

Lemma basic_parser_by_tag w k a pk info :
  if_truthy (StandardsKitBasic.accountId (StandardsKitBasic.options k)) = Some a ->
  if_truthy (StandardsKitBasic.privateKey (StandardsKitBasic.options k)) = Some pk ->
  requestAccount w (basicNetworkOf k) a = Normal info ->
  match lowerCaseIncludes (or_else (keyTypeTag info) (JStr "")) "ecdsa" with
  | Throw e =>
      parserCalls (eventsOf (StandardsKitBasic.initialize w k)) = []
      /\ completionOf (StandardsKitBasic.initialize w k) = Throw e
  | Normal true =>
      parserCalls (eventsOf (StandardsKitBasic.initialize w k)) = [FromStringECDSA pk]
  | Normal false =>
      parserCalls (eventsOf (StandardsKitBasic.initialize w k)) = [FromStringED25519 pk]
  end.
Proof.
  intros Ha Hp Hr. unfold basicNetworkOf, keyTypeTag in *.
  unfold StandardsKitBasic.initialize, bind, get, try_catch, call, lift, modify, throw, ret.
  rewrite Ha, Hp, Hr.
  destruct (lowerCaseIncludes _ "ecdsa") as [ecdsa|e]; [|split; reflexivity].
  destruct ecdsa; unfold built.
  - destruct (failFromStringECDSA w pk) as [e|]; [reflexivity|].
    cbn -[StandardsKitBasic.systemMessage].
    match goal with
    | |- context [agentInitialize w ?ag] => destruct (agentInitialize w ag) as [[]|e]
    end; reflexivity.
  - destruct (failFromStringED25519 w pk) as [e|]; [reflexivity|].
    cbn -[StandardsKitBasic.systemMessage].
    match goal with
    | |- context [agentInitialize w ?ag] => destruct (agentInitialize w ag) as [[]|e]
    end; reflexivity.
Qed.

(** C1 (amended).  For every mirror-lookup result obtained during
    [initialize], in either revision of the kit: if the key-type tag is a
    string containing "ecdsa" in any letter case, the ECDSA parser is the
    one parser invoked, with the raw private-key string; if the tag is
    absent or otherwise falsy (a null or absent account record, an absent
    key field, an absent or empty tag) or a string without "ecdsa", the
    ED25519 parser is the one parser invoked, with the raw private-key
    string; a truthy tag that is not a string makes [initialize] reject
    with a TypeError before any parser is invoked. *)
Theorem key_parser_follows_tag w a pk info :
  a <> "" -> pk <> "" ->
  (forall k,
      accountId (options k) = Some a ->
      privateKey (options k) = Some pk ->
      requestAccount w (networkOf k) a = Normal info ->
      ParserFollowsTag pk info (eventsOf (initialize w k))
                       (completionOf (initialize w k)))
  /\ (forall k,
        StandardsKitBasic.accountId (StandardsKitBasic.options k) = Some a ->
        StandardsKitBasic.privateKey (StandardsKitBasic.options k) = Some pk ->
        requestAccount w (basicNetworkOf k) a = Normal info ->
        ParserFollowsTag pk info (eventsOf (StandardsKitBasic.initialize w k))
                         (completionOf (StandardsKitBasic.initialize w k))).
Proof.
  intros Hane Hpne. split; intros k Ha Hp Hr; apply parser_follows_tag.
  - exact (parser_by_tag w k (if_truthy_some Ha Hane) (if_truthy_some Hp Hpne) Hr).
  - exact (basic_parser_by_tag w k (if_truthy_some Ha Hane) (if_truthy_some Hp Hpne) Hr).
Qed.

Lemma key_parser_follows_tag_witness :
  parserCalls (eventsOf (initialize (mirrorReturns (keyRecord (JStr "ECDSA_SECP256K1")))
                                    (new sampleOptions 0)))
  = [FromStringECDSA "mock-private-key"]
  /\ parserCalls (eventsOf (StandardsKitBasic.initialize
                              (mirrorReturns JNull)
                              (StandardsKitBasic.new
                                 (basicCredentials "0.0.12345" "mock-private-key") 0)))
     = [FromStringED25519 "mock-private-key"].
Proof.
  assert (Hne1 : "0.0.12345" <> "") by discriminate.
  assert (Hne2 : "mock-private-key" <> "") by discriminate.
  split.
  - destruct (@key_parser_follows_tag
                (mirrorReturns (keyRecord (JStr "ECDSA_SECP256K1")))
                "0.0.12345" "mock-private-key" (keyRecord (JStr "ECDSA_SECP256K1"))
                Hne1 Hne2)
      as (H & _).
    destruct (H (new sampleOptions 0) eq_refl eq_refl eq_refl) as (Hecdsa & _).
    apply (Hecdsa "ECDSA_SECP256K1"); [reflexivity|].
    exists "", "ECDSA", "_SECP256K1". split; [reflexivity|].
    exists "E"%char, "C"%char, "D"%char, "S"%char, "A"%char.
    unfold letter. repeat split; auto.
  - destruct (@key_parser_follows_tag
                (mirrorReturns JNull) "0.0.12345" "mock-private-key" JNull Hne1 Hne2)
      as (_ & H).
    destruct (H (StandardsKitBasic.new (basicCredentials "0.0.12345" "mock-private-key") 0)
                eq_refl eq_refl eq_refl) as (_ & _ & Hnull & _).
    apply Hnull. left. reflexivity.
Defined.

(** C2.  When [accountId] or [privateKey] is absent or the empty string,
    [initialize] (in either revision of the kit) rejects with the error
    "Account ID and private key are required" and has made no call at all:
    no mirror-node object is constructed and no lookup is attempted. *)
Theorem initialize_requires_credentials w :
  (forall k,
      accountId (options k) = None \/ accountId (options k) = Some ""
      \/ privateKey (options k) = None \/ privateKey (options k) = Some "" ->
      initialize w k = (k, [], Throw (Error "Account ID and private key are required")))
  /\ (forall k,
        StandardsKitBasic.accountId (StandardsKitBasic.options k) = None
        \/ StandardsKitBasic.accountId (StandardsKitBasic.options k) = Some ""
        \/ StandardsKitBasic.privateKey (StandardsKitBasic.options k) = None
        \/ StandardsKitBasic.privateKey (StandardsKitBasic.options k) = Some "" ->
        StandardsKitBasic.initialize w k
        = (k, [], Throw (Error "Account ID and private key are required"))).
Proof.
  split; intros k H.
  - apply initialize_without_credentials.
    destruct H as [H|[H|[H|H]]];
      [left | left | right | right]; apply if_truthy_none; auto.
  - apply basic_initialize_without_credentials.
    destruct H as [H|[H|[H|H]]];
      [left | left | right | right]; apply if_truthy_none; auto.
Qed.

Lemma initialize_requires_credentials_witness :
  initialize (mirrorReturns JNull) (new (credentials "" "") 0)
  = (new (credentials "" "") 0, [], Throw (Error "Account ID and private key are required"))
  /\ StandardsKitBasic.initialize (mirrorReturns JNull)
       (StandardsKitBasic.new (basicCredentials "0.0.12345" "") 0)
     = (StandardsKitBasic.new (basicCredentials "0.0.12345" "") 0, [],
        Throw (Error "Account ID and private key are required")).
Proof.
  destruct (initialize_requires_credentials (mirrorReturns JNull)) as (H1 & H2).
  split.
  - apply (H1 (new (credentials "" "") 0)). right. left. reflexivity.
  - apply (H2 (StandardsKitBasic.new (basicCredentials "0.0.12345" "") 0)).
    right. right. right. reflexivity.
Defined.









Lemma processMessage_uninitialized w m h k :
  conversationalAgent k = None ->
  processMessage w m h k = (k, [], Throw (Error msg_not_initialized)).
Proof. intros H. unfold processMessage, bind, get, throw. rewrite H. reflexivity. Qed.


(** A kit on which [initialize] was never called rejects [processMessage]
    without reaching the host agent. *)
Lemma processMessage_on_new_kit w m h opts ref :
  processMessage w m h (new opts ref)
  = (new opts ref, [],
     Throw (Error "StandardsKit not initialized. Call initialize() first.")).
Proof. apply processMessage_uninitialized. reflexivity. Qed.

(** With an agent in place, [processMessage] hands message and history to
    the agent and returns what the agent returns. *)
Lemma processMessage_delegates w m h k a :
  conversationalAgent k = Some a ->
  processMessage w m h k =
    (k, [AgentProcessMessage a m match h with Some l => l | None => [] end],
     agentProcessMessage w a m match h with Some l => l | None => [] end).
Proof. intros H. unfold processMessage, bind, get, call. rewrite H. reflexivity. Qed.

(** A successful [initialize] leaves an agent in place. *)
Lemma initialize_success_stores_agent w k :
  completionOf (initialize w k) = Normal tt ->
  exists a, conversationalAgent (stateOf (initialize w k)) = Some a.
Proof.
  intros H.
  destruct (if_truthy_cases (accountId (options k))) as [Ha | [a Ha]].
  { rewrite initialize_without_credentials in H by (left; exact Ha). discriminate H. }
  destruct (if_truthy_cases (privateKey (options k))) as [Hp | [pk Hp]].
  { rewrite initialize_without_credentials in H by (right; exact Hp). discriminate H. }
  pose proof (initialize_cases w k Ha Hp) as Hc. cbv zeta in Hc.
  destruct (requestAccount w (networkOf k) a) as [info|e].
  2:{ rewrite Hc in H. discriminate H. }
  destruct (lowerCaseIncludes _ "ecdsa") as [ecdsa|e].
  2:{ rewrite Hc in H. discriminate H. }
  destruct (if ecdsa then failFromStringECDSA w pk else failFromStringED25519 w pk) as [e|].
  { rewrite Hc in H. discriminate H. }
  destruct Hc as (cfg & _ & Hi). rewrite Hi. eexists. reflexivity.
Qed.

(** An [initialize] that does not reach the agent constructor leaves the
    agent field alone. *)
Lemma initialize_keeps_agent w k :
  assembledConfig (eventsOf (initialize w k)) = None ->
  conversationalAgent (stateOf (initialize w k)) = conversationalAgent k.
Proof.
  intros H.
  destruct (if_truthy_cases (accountId (options k))) as [Ha | [a Ha]].
  { rewrite initialize_without_credentials by (left; exact Ha). reflexivity. }
  destruct (if_truthy_cases (privateKey (options k))) as [Hp | [pk Hp]].
  { rewrite initialize_without_credentials by (right; exact Hp). reflexivity. }
  pose proof (initialize_cases w k Ha Hp) as Hc. cbv zeta in Hc.
  destruct (requestAccount w (networkOf k) a) as [info|e].
  2:{ rewrite Hc. reflexivity. }
  destruct (lowerCaseIncludes _ "ecdsa") as [ecdsa|e].
  2:{ rewrite Hc. reflexivity. }
  destruct (if ecdsa then failFromStringECDSA w pk else failFromStringED25519 w pk) as [e|].
  { rewrite Hc. reflexivity. }
  destruct Hc as (cfg & _ & Hi). rewrite Hi in H.
  unfold eventsOf in H. cbn [fst snd app] in H. destruct ecdsa; discriminate H.
Qed.

Lemma processMessage_keeps_state w m h k :
  stateOf (processMessage w m h k) = k.
Proof.
  unfold processMessage, bind, get, call, throw, stateOf.
  destruct (conversationalAgent k); reflexivity.
Qed.

(** As long as no [initialize] has constructed the host agent, the agent
    field is undefined: [processMessage] rejects with the not-initialized
    error without any call, and so does [getConversationalAgent]. *)
Lemma guarded_until_agent_constructed calls :
  forall k,
    conversationalAgent k = None ->
    agentConstructed calls k = false ->
    conversationalAgent (run calls k) = None.
Proof.
  induction calls as [|c rest IH]; intros k Hk Hc; simpl in *; [exact Hk|].
  apply orb_false_iff in Hc. destruct Hc as [Hc Hrest].
  apply IH; [|exact Hrest].
  destruct c as [w | w m h]; simpl.
  - rewrite initialize_keeps_agent; [exact Hk|].
    destruct (assembledConfig (eventsOf (initialize w k))); [discriminate Hc | reflexivity].
  - rewrite processMessage_keeps_state. exact Hk.
Qed.

(** After a successful [initialize], [processMessage] hands message and
    history to the constructed agent and returns its answer unchanged. *)
Lemma processMessage_after_successful_initialize w w' m h k :
  completionOf (initialize w k) = Normal tt ->
  exists a,
    getConversationalAgent (stateOf (initialize w k)) = Normal a
    /\ processMessage w' m h (stateOf (initialize w k))
       = (stateOf (initialize w k),
          [AgentProcessMessage a m match h with Some l => l | None => [] end],
          agentProcessMessage w' a m match h with Some l => l | None => [] end).
Proof.
  intros H. destruct (initialize_success_stores_agent _ _ H) as (a & Ha).
  exists a. split.
  - unfold getConversationalAgent. rewrite Ha. reflexivity.
  - apply processMessage_delegates. exact Ha.
Qed.

(** C7 (the code at the failing input).  The host agent's own [initialize]
    rejects, so the kit's [initialize] rejects and has not completed
    successfully; the agent object was stored before that call, so
    [getConversationalAgent] returns it and [processMessage] reaches the
    host agent instead of rejecting with the not-initialized error. *)
Theorem processMessage_after_failed_initialize :
  let k0 := new sampleOptions 0 in
  let k1 := stateOf (initialize agentInitializeRejects k0) in
  completionOf (initialize agentInitializeRejects k0)
  = Throw (Thrown "agent initialization failed")
  /\ initialized [Initialize agentInitializeRejects] k0 = false
  /\ exists agent,
       getConversationalAgent k1 = Normal agent
       /\ processMessage agentInitializeRejects "Test" None k1
          = (k1, [AgentProcessMessage agent "Test" []], Normal sampleResponse).
Proof.
  cbv zeta. split; [reflexivity|]. split; [reflexivity|].
  eexists. split; reflexivity.
Qed.

End KitProperties.

(* ===================================================================== *)
(** ** The unit tests, replayed on the embedding                          *)
(* ===================================================================== *)

Section UnitTests.
Import KitLifecycle.

(** openconvai-plugin.unit.test.ts *)

Example plugin_initializes_tools_when_hederaKit_is_provided :
  let r := OpenConvAIPlugin.initialize PluginLifecycle.constructsAll
             PluginLifecycle.withKit OpenConvAIPlugin.new in
  length (OpenConvAIPlugin.getTools (stateOf r)) = 11
  /\ In (OpenConvAIPlugin.LoggerInfo (OpenConvAIPlugin.LoggerRef 2)
           "OpenConvAI Standards Agent Kit Plugin initialized successfully")
        (eventsOf r).
Proof. split; [reflexivity|]. cbn. intuition. Qed.

Example plugin_warns_when_hederaKit_is_missing :
  let r := OpenConvAIPlugin.initialize PluginLifecycle.constructsAll
             PluginLifecycle.withoutKit OpenConvAIPlugin.new in
  length (OpenConvAIPlugin.getTools (stateOf r)) = 0
  /\ In (OpenConvAIPlugin.LoggerWarn (OpenConvAIPlugin.LoggerRef 2)
           "HederaKit not found in context. OpenConvAI tools will not be available.")
        (eventsOf r).
Proof. split; [reflexivity|]. cbn. intuition. Qed.

Example tools_are_properly_categorized :
  map OpenConvAIPlugin.tool_name
      (OpenConvAIPlugin.getTools
         (stateOf (OpenConvAIPlugin.initialize PluginLifecycle.constructsAll
                     PluginLifecycle.withKit OpenConvAIPlugin.new)))
  = [ "register_agent"; "find_registrations"; "retrieve_profile";
      "initiate_connection"; "list_connections"; "send_message_to_connection";
      "check_messages"; "monitor_connections"; "manage_connection_requests";
      "accept_connection_request"; "list_unapproved_connection_requests" ].
Proof. reflexivity. Qed.

Example plugin_uses_context_stateManager_if_provided :
  OpenConvAIPlugin.getStateManager
    (stateOf (OpenConvAIPlugin.initialize PluginLifecycle.constructsAll
                PluginLifecycle.withKitAndState OpenConvAIPlugin.new))
  = Some (HostState 7).
Proof. reflexivity. Qed.

Example cleanup_removes_tools_and_state :
  let p := PluginLifecycle.run
             [PluginLifecycle.Initialize PluginLifecycle.constructsAll PluginLifecycle.withKit]
             OpenConvAIPlugin.new in
  length (OpenConvAIPlugin.getTools p) = 11
  /\ OpenConvAIPlugin.cleanup p
     = ({| OpenConvAIPlugin.context := Some PluginLifecycle.withKit;
           OpenConvAIPlugin.stateManager := None;
           OpenConvAIPlugin.tools := [] |},
        [OpenConvAIPlugin.LoggerInfo (OpenConvAIPlugin.LoggerRef 2)
           "OpenConvAI Standards Agent Kit Plugin cleaned up"],
        Normal tt).
Proof. split; reflexivity. Qed.

(** standards-kit.unit.test.ts *)

Example initializes_with_ED25519_key :
  let r := StandardsKit.initialize (mirrorReturns (keyRecord (JStr "ED25519")))
             (StandardsKit.new sampleOptions 0) in
  completionOf r = Normal tt
  /\ In (StandardsKit.RequestAccount "testnet" "0.0.12345") (eventsOf r)
  /\ parserCalls (eventsOf r) = [StandardsKit.FromStringED25519 "mock-private-key"].
Proof.
  cbv zeta. split; [reflexivity|]. split; [|reflexivity].
  right. left. reflexivity.
Qed.

Example handles_mirror_node_errors :
  StandardsKit.initialize mirrorRejects (StandardsKit.new sampleOptions 0)
  = (StandardsKit.new sampleOptions 0,
     [StandardsKit.NewHederaMirrorNode "testnet";
      StandardsKit.RequestAccount "testnet" "0.0.12345";
      StandardsKit.LoggerError "Failed to initialize StandardsKit:" (Thrown "Network error")],
     Throw (Thrown "Network error")).
Proof. reflexivity. Qed.

Example uses_default_values_for_optional_parameters :
  exists cfg,
    assembledConfig
      (eventsOf (StandardsKit.initialize (mirrorReturns (keyRecord (JStr "ED25519")))
                   (StandardsKit.new sampleOptions 0))) = Some cfg
    /\ StandardsKit.field "openAIModelName" cfg = Some (StandardsKit.Val (JStr "gpt-4o"))
    /\ StandardsKit.field "verbose" cfg = Some (StandardsKit.Val (JBool false))
    /\ StandardsKit.field "operationalMode" cfg
       = Some (StandardsKit.Val (JStr "autonomous")).
Proof. eexists. split; [reflexivity|]. repeat split. Qed.

Example processes_messages_after_initialization :
  let k := stateOf (StandardsKit.initialize (mirrorReturns (keyRecord (JStr "ED25519")))
                      (StandardsKit.new sampleOptions 0)) in
  completionOf (StandardsKit.processMessage (mirrorReturns JNull) "Find all AI agents" None k)
  = Normal sampleResponse.
Proof. reflexivity. Qed.

End UnitTests.

(* ===================================================================== *)
(** ** More on OpenConvAIPlugin: what it constructs, logs and keeps       *)
(* ===================================================================== *)

Section PluginTraceProperties.
Import OpenConvAIPlugin PluginLifecycle PluginTrace.

Lemma loggerCalls_app evs1 evs2 :
  loggerCalls (evs1 ++ evs2) = loggerCalls evs1 ++ loggerCalls evs2.
Proof.
  induction evs1 as [|e evs1 IH]; [reflexivity|].
  destruct e; simpl; rewrite ?IH; reflexivity.
Qed.

Lemma toolCalls_app evs1 evs2 :
  toolCalls (evs1 ++ evs2) = toolCalls evs1 ++ toolCalls evs2.
Proof.
  induction evs1 as [|e evs1 IH]; [reflexivity|].
  destruct e; simpl; rewrite ?IH; reflexivity.
Qed.

Lemma defaultStates_app evs1 evs2 :
  defaultStates (evs1 ++ evs2) = defaultStates evs1 + defaultStates evs2.
Proof.
  induction evs1 as [|e evs1 IH]; [reflexivity|].
  destruct e; simpl; rewrite ?IH; reflexivity.
Qed.

Lemma toolCalls_map ps cs :
  toolCalls (map (fun c => NewTool c ps) cs) = map (fun c => (c, ps)) cs.
Proof. induction cs as [|c cs IH]; simpl; [|rewrite IH]; reflexivity. Qed.

Lemma loggerCalls_map ps cs : loggerCalls (map (fun c => NewTool c ps) cs) = [].
Proof. induction cs; simpl; auto. Qed.

Lemma defaultStates_map ps cs : defaultStates (map (fun c => NewTool c ps) cs) = 0.
Proof. induction cs; simpl; auto. Qed.

Lemma builderCalls_map ps cs : builderCalls (map (fun c => NewTool c ps) cs) = [].
Proof. induction cs; simpl; auto. Qed.

(** The constructor calls of [initializeTools], one by one. *)
Lemma initializeTools_events w p ctx sm k :
  context p = Some ctx ->
  stateManager p = Some sm ->
  config_hederaKit ctx = Some k ->
  let ps := {| p_hederaKit := k;
               p_hcs10Builder := {| builder_hederaKit := k; builder_stateManager := sm |};
               p_logger := logger ctx |} in
  eventsOf (initializeTools w p) =
    NewHCS10Builder k sm
      :: match failNewHCS10Builder w k sm with
         | Some _ => []
         | None => map (fun c => NewTool c ps) (constructedUntilThrow w ps expectedCatalogue)
         end.
Proof.
  intros Hc Hs Hk ps. subst ps.
  unfold initializeTools.
  unfold bind, call, modify, get, ret, throw, newTool, this_context, built; cbn.
  rewrite Hs, Hc. cbn. rewrite Hk.
  destruct (failNewHCS10Builder w k sm) as [e|]; [reflexivity|].
  repeat (rewrite ?Hc; cbn;
          match goal with
          | |- context [failNewTool w ?c ?q] =>
              destruct (failNewTool w c q) as [e|]; [reflexivity|]
          end).
  reflexivity.
Qed.

(** All the calls of [initialize], as a function of the collaborators and
    the context alone. *)
Lemma initialize_events w ctx p :
  eventsOf (initialize w ctx p) =
    SuperInitialize ctx
      :: match config_hederaKit ctx with
         | None => [LoggerWarn (logger ctx) msg_no_kit]
         | Some k =>
             match ctx_stateManager ctx with
             | Some _ => []
             | None => [NewOpenConvaiState]
             end
             ++ (NewHCS10Builder k (stateManagerFor ctx)
                   :: match failNewHCS10Builder w k (stateManagerFor ctx) with
                      | Some _ => []
                      | None =>
                          map (fun c => NewTool c (paramsFor ctx k))
                              (constructedUntilThrow w (paramsFor ctx k) expectedCatalogue)
                      end)
             ++ [match completionOf
                         (initializeTools w
                            (set_stateManager (Some (stateManagerFor ctx))
                                              (set_context ctx p))) with
                 | Normal _ => LoggerInfo (logger ctx) msg_initialized
                 | Throw e => LoggerError (logger ctx) msg_failed e
                 end]
         end.
Proof.
  destruct (config_hederaKit ctx) as [k|] eqn:Hk.
  2:{ rewrite (@initialize_without_kit w ctx p Hk). reflexivity. }
  pose proof (@initializeTools_events w
                (set_stateManager (Some (stateManagerFor ctx)) (set_context ctx p))
                ctx (stateManagerFor ctx) k eq_refl eq_refl Hk) as Hev.
  cbv zeta in Hev. fold (paramsFor ctx k) in Hev.
  destruct (@initialize_with_kit w ctx p k Hk) as [(e & evs & Ht & _ & Hi) | [Ht Hi]];
    rewrite Hi, Ht; rewrite Ht in Hev; unfold eventsOf, completionOf in *;
    cbn [fst snd] in *; rewrite <- Hev; reflexivity.
Qed.

Lemma initializeTools_completion w p ctx sm k :
  context p = Some ctx ->
  stateManager p = Some sm ->
  config_hederaKit ctx = Some k ->
  let ps := {| p_hederaKit := k;
               p_hcs10Builder := {| builder_hederaKit := k; builder_stateManager := sm |};
               p_logger := logger ctx |} in
  completionOf (initializeTools w p) =
    match failNewHCS10Builder w k sm with
    | Some e => Throw e
    | None =>
        match firstThrow w ps expectedCatalogue with
        | Some e => Throw e
        | None => Normal tt
        end
    end.
Proof.
  intros Hc Hs Hk ps. subst ps.
  unfold initializeTools.
  unfold bind, call, modify, get, ret, throw, newTool, this_context, built; cbn.
  rewrite Hs, Hc. cbn. rewrite Hk.
  destruct (failNewHCS10Builder w k sm) as [e|]; [reflexivity|].
  repeat (rewrite ?Hc; cbn;
          match goal with
          | |- context [failNewTool w ?c ?q] =>
              destruct (failNewTool w c q) as [e|]; [reflexivity|]
          end).
  reflexivity.
Qed.

Lemma initializeTools_completion_for w ctx p k :
  config_hederaKit ctx = Some k ->
  completionOf (initializeTools w (set_stateManager (Some (stateManagerFor ctx))
                                                    (set_context ctx p))) =
    match constructionError w ctx k with
    | Some e => Throw e
    | None => Normal tt
    end.
Proof.
  intros Hk.
  rewrite (@initializeTools_completion w
             (set_stateManager (Some (stateManagerFor ctx)) (set_context ctx p))
             ctx (stateManagerFor ctx) k eq_refl eq_refl Hk).
  unfold constructionError, paramsFor.
  destruct (failNewHCS10Builder w k (stateManagerFor ctx)); [reflexivity|].
  destruct (firstThrow _ _ _); reflexivity.
Qed.

Lemma succeeded_iff_no_error w ctx p k :
  config_hederaKit ctx = Some k ->
  succeeded (eventsOf (initialize w ctx p)) =
    match constructionError w ctx k with
    | Some _ => false
    | None => true
    end.
Proof.
  intros Hk. rewrite initialize_events, Hk, (initializeTools_completion_for w ctx p Hk).
  change (SuperInitialize ctx :: ?l) with ([SuperInitialize ctx] ++ l).
  change (NewHCS10Builder k ?s :: ?l) with ([NewHCS10Builder k s] ++ l).
  rewrite !succeeded_app, succeeded_pre.
  assert (Hmid : succeeded
                   match failNewHCS10Builder w k (stateManagerFor ctx) with
                   | Some _ => []
                   | None => map (fun c => NewTool c (paramsFor ctx k))
                                 (constructedUntilThrow w (paramsFor ctx k) expectedCatalogue)
                   end = false).
  { destruct (failNewHCS10Builder w k (stateManagerFor ctx)); [reflexivity|].
    apply constructions_not_success.
    induction (constructedUntilThrow w (paramsFor ctx k) expectedCatalogue);
      constructor; simpl; auto. }
  rewrite Hmid. destruct (constructionError w ctx k); reflexivity.
Qed.

(** X1.  Whatever calls a host makes on a new plugin, [getTools] returns
    either nothing or the complete eleven-entry catalogue built with one
    argument: a constructor that throws half-way never leaves a partial
    catalogue behind. *)
Theorem catalogue_is_all_or_nothing calls :
  getTools (run calls new) = []
  \/ exists ps, getTools (run calls new) = catalogueWith ps.
Proof.
  assert (Hgen : forall cs p,
             (tools p = [] \/ exists ps, tools p = catalogueWith ps) ->
             tools (run cs p) = [] \/ exists ps, tools (run cs p) = catalogueWith ps).
  { induction cs as [|c rest IH]; intros p Hp; simpl; [exact Hp|].
    apply IH. destruct c as [w ctx| | |]; simpl; try exact Hp.
    - destruct (config_hederaKit ctx) as [k|] eqn:Hk.
      + destruct (@initialize_with_kit w ctx p k Hk) as [(e & evs & _ & _ & Hi) | [_ Hi]];
          rewrite Hi; [exact Hp|].
        right. eexists. reflexivity.
      + rewrite (@initialize_without_kit w ctx p Hk). exact Hp.
    - rewrite cleanup_state. left. reflexivity. }
  apply Hgen. left. reflexivity.
Qed.

(** X2.  Every [initialize] makes exactly one logger call, on the logger of
    the context it was given: the warning when the context carries no
    agent-kit handle, otherwise the success message, or the error message
    with the error of the first constructor that threw. *)
Theorem initialize_logs_exactly_once w ctx p :
  loggerCalls (eventsOf (initialize w ctx p)) =
    [match config_hederaKit ctx with
     | None => LoggerWarn (logger ctx) msg_no_kit
     | Some k =>
         match constructionError w ctx k with
         | None => LoggerInfo (logger ctx) msg_initialized
         | Some e => LoggerError (logger ctx) msg_failed e
         end
     end].
Proof.
  rewrite initialize_events.
  destruct (config_hederaKit ctx) as [k|] eqn:Hk; [|reflexivity].
  rewrite (initializeTools_completion_for w ctx p Hk).
  change (SuperInitialize ctx :: ?l) with ([SuperInitialize ctx] ++ l).
  change (NewHCS10Builder k ?s :: ?l) with ([NewHCS10Builder k s] ++ l).
  rewrite !loggerCalls_app.
  assert (Hpre : loggerCalls match ctx_stateManager ctx with
                             | Some _ => []
                             | None => [NewOpenConvaiState]
                             end = []) by (destruct (ctx_stateManager ctx); reflexivity).
  assert (Hmid : loggerCalls
                   match failNewHCS10Builder w k (stateManagerFor ctx) with
                   | Some _ => []
                   | None => map (fun c => NewTool c (paramsFor ctx k))
                                 (constructedUntilThrow w (paramsFor ctx k) expectedCatalogue)
                   end = []).
  { destruct (failNewHCS10Builder w k (stateManagerFor ctx)); [reflexivity|].
    apply loggerCalls_map. }
  rewrite Hpre, Hmid. destruct (constructionError w ctx k); reflexivity.
Qed.

(** X3.  What [initialize] constructs.  Without an agent-kit handle:
    nothing.  With one: the default state manager exactly when the context
    supplies none; exactly one builder, from the handle and the chosen state
    manager; and the tools in catalogue order, every one with the same
    argument, up to and including the first whose constructor throws -- no
    tool at all when the builder's constructor throws. *)
Theorem initialize_constructions w ctx p :
  let evs := eventsOf (initialize w ctx p) in
  match config_hederaKit ctx with
  | None => defaultStates evs = 0 /\ builderCalls evs = [] /\ toolCalls evs = []
  | Some k =>
      defaultStates evs = match ctx_stateManager ctx with Some _ => 0 | None => 1 end
      /\ builderCalls evs = [(k, stateManagerFor ctx)]
      /\ toolCalls evs =
           match failNewHCS10Builder w k (stateManagerFor ctx) with
           | Some _ => []
           | None =>
               map (fun c => (c, paramsFor ctx k))
                   (constructedUntilThrow w (paramsFor ctx k) expectedCatalogue)
           end
  end.
Proof.
  cbv zeta. rewrite initialize_events.
  destruct (config_hederaKit ctx) as [k|] eqn:Hk; [|repeat split].
  change (SuperInitialize ctx :: ?l) with ([SuperInitialize ctx] ++ l).
  change (NewHCS10Builder k ?s :: ?l) with ([NewHCS10Builder k s] ++ l).
  rewrite !defaultStates_app, !builderCalls_app, !toolCalls_app.
  assert (Hlog : forall e : Event,
             (e = LoggerInfo (logger ctx) msg_initialized
              \/ exists err, e = LoggerError (logger ctx) msg_failed err) ->
             defaultStates [e] = 0 /\ builderCalls [e] = [] /\ toolCalls [e] = []).
  { intros e [->|[err ->]]; repeat split. }
  destruct (Hlog (match completionOf
                          (initializeTools w
                             (set_stateManager (Some (stateManagerFor ctx))
                                               (set_context ctx p))) with
                  | Normal _ => LoggerInfo (logger ctx) msg_initialized
                  | Throw e => LoggerError (logger ctx) msg_failed e
                  end)) as (Hl1 & Hl2 & Hl3).
  { destruct (completionOf _); [left; reflexivity | right; eexists; reflexivity]. }
  rewrite Hl1, Hl2, Hl3.
  destruct (failNewHCS10Builder w k (stateManagerFor ctx));
    rewrite ?defaultStates_map, ?builderCalls_map, ?toolCalls_map;
    destruct (ctx_stateManager ctx); cbn; rewrite ?app_nil_r; repeat split; reflexivity.
Qed.

(** X4.  What [initialize] does is decided by the collaborators and the
    context alone, not by what the plugin went through before: it makes the
    same calls from any two states, and when it succeeds it leaves the same
    catalogue and the same state manager. *)
Theorem initialize_ignores_history w ctx p p' :
  eventsOf (initialize w ctx p) = eventsOf (initialize w ctx p')
  /\ (succeeded (eventsOf (initialize w ctx p)) = true ->
      getTools (stateOf (initialize w ctx p)) = getTools (stateOf (initialize w ctx p'))
      /\ getStateManager (stateOf (initialize w ctx p))
         = getStateManager (stateOf (initialize w ctx p'))).
Proof.
  assert (Hev : eventsOf (initialize w ctx p) = eventsOf (initialize w ctx p')).
  { rewrite !initialize_events.
    destruct (config_hederaKit ctx) as [k|] eqn:Hk; [|reflexivity].
    rewrite !(initializeTools_completion_for w ctx _ Hk). reflexivity. }
  split; [exact Hev|].
  intros Hs. assert (Hs' := Hs). rewrite Hev in Hs'.
  destruct (config_hederaKit ctx) as [k|] eqn:Hk.
  2:{ rewrite (@initialize_without_kit w ctx p Hk) in Hs. discriminate Hs. }
  rewrite (succeeded_iff_no_error w ctx p Hk) in Hs.
  rewrite (succeeded_iff_no_error w ctx p' Hk) in Hs'.
  destruct (@initialize_with_kit w ctx p k Hk) as [(e & evs & Ht & _ & _) | [_ Hi]].
  { pose proof (initializeTools_completion_for w ctx p Hk) as Hc.
    rewrite Ht in Hc. unfold completionOf in Hc. cbn [snd] in Hc.
    destruct (constructionError w ctx k); discriminate. }
  destruct (@initialize_with_kit w ctx p' k Hk) as [(e & evs & Ht & _ & _) | [_ Hi']].
  { pose proof (initializeTools_completion_for w ctx p' Hk) as Hc.
    rewrite Ht in Hc. unfold completionOf in Hc. cbn [snd] in Hc.
    destruct (constructionError w ctx k); discriminate. }
  rewrite Hi, Hi'. split; reflexivity.
Qed.

Lemma initialize_ignores_history_witness :
  getTools (stateOf (initialize constructsAll otherKitAndLogger
                       (run [Initialize constructsAll withKit] new)))
  = getTools (stateOf (initialize constructsAll otherKitAndLogger new)).
Proof.
  destruct (initialize_ignores_history constructsAll otherKitAndLogger
              (run [Initialize constructsAll withKit] new) new) as (_ & H).
  destruct (H eq_refl) as (Ht & _). exact Ht.
Defined.

(** X5.  An [initialize] that does not succeed still replaces the stored
    context, and with an agent-kit handle present also the stored state
    manager, but never touches the catalogue: after a failed
    re-initialization [getTools] still returns the tools of the earlier
    success while [getStateManager] already returns the new state manager. *)
Theorem unsuccessful_initialize_effects w ctx p :
  succeeded (eventsOf (initialize w ctx p)) = false ->
  let p' := stateOf (initialize w ctx p) in
  context p' = Some ctx
  /\ getTools p' = getTools p
  /\ getStateManager p' =
       match config_hederaKit ctx with
       | Some _ => Some (stateManagerFor ctx)
       | None => getStateManager p
       end.
Proof.
  intros Hs. cbv zeta.
  destruct (config_hederaKit ctx) as [k|] eqn:Hk.
  - destruct (@initialize_with_kit w ctx p k Hk) as [(e & evs & _ & _ & Hi) | [Ht Hi]].
    + rewrite Hi. repeat split.
    + rewrite (succeeded_iff_no_error w ctx p Hk) in Hs.
      pose proof (initializeTools_completion_for w ctx p Hk) as Hc.
      rewrite Ht in Hc. unfold completionOf in Hc. cbn [snd] in Hc.
      destruct (constructionError w ctx k); [discriminate Hc | discriminate Hs].
  - rewrite (@initialize_without_kit w ctx p Hk). repeat split.
Qed.

Lemma unsuccessful_initialize_effects_witness :
  let p := run [Initialize constructsAll withKit] new in
  let p' := stateOf (initialize secondToolThrows otherKitAndLogger p) in
  getTools p' = catalogueWith (paramsFor withKit (KitRef 1))
  /\ getStateManager p' = Some (HostState 8).
Proof.
  cbv zeta.
  destruct (@unsuccessful_initialize_effects secondToolThrows otherKitAndLogger
              (run [Initialize constructsAll withKit] new) eq_refl) as (_ & Ht & Hs).
  split; [rewrite Ht; reflexivity | exact Hs].
Defined.

Lemma context_after_calls calls :
  forall p, context (run calls p) = lastContext calls (context p).
Proof.
  induction calls as [|c rest IH]; intros p; simpl; [reflexivity|].
  rewrite IH. destruct c as [w ctx| | |]; simpl; try reflexivity.
  - f_equal. destruct (config_hederaKit ctx) as [k|] eqn:Hk.
    + destruct (@initialize_with_kit w ctx p k Hk) as [(e & evs & _ & _ & Hi) | [_ Hi]];
        rewrite Hi; reflexivity.
    + rewrite (@initialize_without_kit w ctx p Hk). reflexivity.
  - rewrite cleanup_state. reflexivity.
Qed.

(** X6.  [cleanup] is safe at any point of a plugin's life: it returns
    normally, empties the catalogue, drops the state manager and keeps the
    context.  It logs exactly when some [initialize] was called before, on
    the logger of the latest context -- on a plugin that was never
    initialized it logs nothing -- and calling it twice leaves the same
    state as calling it once. *)
Theorem cleanup_after_calls calls :
  let p := run calls new in
  cleanup p =
    ({| context := lastContext calls None; stateManager := None; tools := [] |},
     match lastContext calls None with
     | Some ctx => [LoggerInfo (logger ctx) msg_cleaned_up]
     | None => []
     end,
     Normal tt)
  /\ stateOf (cleanup (stateOf (cleanup p))) = stateOf (cleanup p).
Proof.
  cbv zeta. pose proof (context_after_calls calls new) as Hc. simpl in Hc.
  split.
  - rewrite <- Hc. destruct (run calls new) as [[c|] sm ts]; reflexivity.
  - rewrite !cleanup_state. reflexivity.
Qed.

End PluginTraceProperties.

(* ===================================================================== *)
(** ** More on StandardsKit: calls, failures and what the kit keeps       *)
(* ===================================================================== *)

Section KitTraceProperties.
Import StandardsKit KitLifecycle KitTrace.

Lemma initialize_runs w k : InitializeRun w k (initialize w k).
Proof.
  destruct (if_truthy_cases (accountId (options k))) as [Ha | [a Ha]].
  { rewrite initialize_without_credentials by (left; exact Ha).
    constructor. left. exact Ha. }
  destruct (if_truthy_cases (privateKey (options k))) as [Hp | [pk Hp]].
  { rewrite initialize_without_credentials by (right; exact Hp).
    constructor. right. exact Hp. }
  pose proof (initialize_cases w k Ha Hp) as Hc. cbv zeta in Hc.
  destruct (requestAccount w (networkOf k) a) as [info|e] eqn:Hr.
  2:{ rewrite Hc. eapply RunLookupRejects; eassumption. }
  destruct (lowerCaseIncludes _ "ecdsa") as [ecdsa|e] eqn:Hl.
  2:{ rewrite Hc. eapply RunTagThrows; eassumption. }
  destruct (if ecdsa then failFromStringECDSA w pk else failFromStringED25519 w pk)
    as [e|] eqn:Hf.
  { rewrite Hc. eapply RunParserThrows; eassumption. }
  destruct Hc as (cfg & Hfacts & Hi). rewrite Hi.
  eapply RunAgentBuilt; try eassumption. reflexivity.
Qed.

Lemma process_keeps_kit w m h k : stateOf (processMessage w m h k) = k.
Proof.
  unfold processMessage, bind, get, call, throw, stateOf.
  destruct (conversationalAgent k); reflexivity.
Qed.

(** X7.  A kit only ever writes its agent field: whatever calls are made,
    and however they end, the plugin, the state manager and the options the
    kit was constructed with stay in place; the state manager is the one
    supplied in the options or else the default. *)
Theorem kit_fields_are_stable calls opts ref :
  let k := run calls (new opts ref) in
  getPlugin k = OpenConvAIPluginRef ref
  /\ getStateManager k = match opt_stateManager opts with
                         | Some sm => sm
                         | None => OpenConvaiState
                         end
  /\ options k = opts.
Proof.
  assert (Hgen : forall cs k,
             plugin (run cs k) = plugin k
             /\ stateManager (run cs k) = stateManager k
             /\ options (run cs k) = options k).
  { induction cs as [|c rest IH]; intros k; simpl; [repeat split|].
    destruct (IH (step c k)) as (H1 & H2 & H3). rewrite H1, H2, H3.
    destruct c as [w | w m h]; simpl.
    - destruct (initialize_runs w k); repeat split.
    - rewrite process_keeps_kit. repeat split. }
  cbv zeta. destruct (Hgen calls (new opts ref)) as (H1 & H2 & H3).
  unfold getPlugin, getStateManager. rewrite H1, H2, H3. repeat split.
Qed.

(** X8.  How [initialize] fails.  A call that resolves logs no error.  A
    call that rejects either found the credentials missing -- then it made
    no call at all and logged nothing -- or failed inside its [try] block:
    then the error it rejects with is the one error it logged, once, as its
    last call, under "Failed to initialize StandardsKit:". *)
Theorem initialize_failure_is_logged_once w k :
  match completionOf (initialize w k) with
  | Normal _ => errorLogs (eventsOf (initialize w k)) = []
  | Throw e =>
      (eventsOf (initialize w k) = [] /\ e = Error msg_required
       /\ (if_truthy (accountId (options k)) = None
           \/ if_truthy (privateKey (options k)) = None))
      \/ (errorLogs (eventsOf (initialize w k)) = [(msg_failed, e)]
          /\ exists calls, eventsOf (initialize w k) = calls ++ [LoggerError msg_failed e])
  end.
Proof.
  destruct (initialize_runs w k) as [H | a pk e | a pk info e | a pk info ecdsa e
                                     | a pk info ecdsa cfg c];
    unfold completionOf, eventsOf; cbn [fst snd].
  - left. repeat split. exact H.
  - right. split; [reflexivity|]. eexists [_; _]. reflexivity.
  - right. split; [reflexivity|]. eexists [_; _]. reflexivity.
  - right. split; [destruct ecdsa; reflexivity|]. eexists [_; _; _]. reflexivity.
  - destruct c as [[]|e]; destruct ecdsa; cbn;
      try reflexivity; right; (split; [reflexivity|]);
      eexists [_; _; _; _; _; _; _]; reflexivity.
Qed.

(** X9.  With both credentials in place every [initialize] constructs one
    mirror node and makes one account lookup, for the kit's account on the
    kit's network ("testnet" unless the options name one), whatever happens
    afterwards; and a signer, if one is constructed, is for that account on
    that same network, with a key parsed from the raw private-key string. *)
Theorem initialize_looks_up_once w k a pk :
  accountId (options k) = Some a -> a <> "" ->
  privateKey (options k) = Some pk -> pk <> "" ->
  let evs := eventsOf (initialize w k) in
  mirrorNodes evs = [networkOf k]
  /\ lookupCalls evs = [(networkOf k, a)]
  /\ (signersBuilt evs = []
      \/ exists c,
           signersBuilt evs =
             [{| signer_accountId := a;
                 signer_key := {| curve := c; parsedFrom := pk |};
                 signer_network := networkOf k |}]).
Proof.
  intros Ha Hane Hp Hpne. cbv zeta.
  pose proof (if_truthy_some Ha Hane) as Ha'. pose proof (if_truthy_some Hp Hpne) as Hp'.
  destruct (initialize_runs w k) as [H | a0 pk0 e H1 H2 | a0 pk0 info e H1 H2
                                     | a0 pk0 info ecdsa e H1 H2
                                     | a0 pk0 info ecdsa cfg c H1 H2];
    unfold eventsOf; cbn [fst snd].
  - destruct H as [H|H]; congruence.
  - rewrite Ha' in H1. injection H1 as <-. repeat split. left. reflexivity.
  - rewrite Ha' in H1. injection H1 as <-. repeat split. left. reflexivity.
  - rewrite Ha' in H1. injection H1 as <-.
    destruct ecdsa; repeat split; left; reflexivity.
  - rewrite Ha' in H1. injection H1 as <-. rewrite Hp' in H2. injection H2 as <-.
    destruct c as [[]|e]; destruct ecdsa; cbn; repeat split; right; eexists; reflexivity.
Qed.

Lemma initialize_looks_up_once_witness :
  lookupCalls (eventsOf (initialize ecdsaParserThrows (new (withPreamble "x") 0)))
  = [("mainnet", "0.0.12345")]
  /\ mirrorNodes (eventsOf (initialize mirrorRejects (new sampleOptions 0))) = ["testnet"].
Proof.
  assert (Hne1 : "0.0.12345" <> "") by discriminate.
  assert (Hne2 : "mock-private-key" <> "") by discriminate.
  split.
  - destruct (@initialize_looks_up_once ecdsaParserThrows (new (withPreamble "x") 0)
                "0.0.12345" "mock-private-key" eq_refl Hne1 eq_refl Hne2) as (_ & H & _).
    exact H.
  - destruct (@initialize_looks_up_once mirrorRejects (new sampleOptions 0)
                "0.0.12345" "mock-private-key" eq_refl Hne1 eq_refl Hne2) as (H & _).
    exact H.
Defined.

(** X10.  An [initialize] that resolves has made exactly seven calls, in
    this order and each once: construct the mirror node, look the account
    up, parse the key with one parser, construct the signer from that key,
    ask for the core plugins, construct the host agent with that signer,
    initialize that agent; the agent it stores is that agent, and the
    signer's curve is the curve of the parser that was called. *)
Theorem resolved_initialize_calls w k :
  completionOf (initialize w k) = Normal tt ->
  exists a pk c cfg,
    accountId (options k) = Some a
    /\ privateKey (options k) = Some pk
    /\ let signer :=
         {| signer_accountId := a;
            signer_key := {| curve := c; parsedFrom := pk |};
            signer_network := networkOf k |} in
       let agent := {| agent_signer := signer; agent_config := cfg |} in
       eventsOf (initialize w k) =
         [NewHederaMirrorNode (networkOf k); RequestAccount (networkOf k) a;
          match c with ECDSA => FromStringECDSA pk | ED25519 => FromStringED25519 pk end;
          NewServerSigner signer; GetAllHederaCorePlugins;
          NewHederaConversationalAgent signer cfg; AgentInitialize agent]
       /\ getConversationalAgent (stateOf (initialize w k)) = Normal agent.
Proof.
  intros Hc.
  assert (Hopt : forall x s, if_truthy x = Some s -> x = Some s).
  { intros [s'|] s; simpl; [|discriminate]. destruct (s' =? ""); congruence. }
  destruct (initialize_runs w k) as [H | a pk e | a pk info e | a pk info ecdsa e
                                     | a pk info ecdsa cfg c H1 H2];
    unfold completionOf in Hc; cbn [snd] in Hc; try discriminate Hc.
  subst c. exists a, pk, (if ecdsa then ECDSA else ED25519), cfg.
  split; [apply Hopt; exact H1|]. split; [apply Hopt; exact H2|].
  unfold eventsOf, stateOf. cbn [fst snd]. destruct ecdsa; split; reflexivity.
Qed.

Lemma resolved_initialize_calls_witness :
  length (eventsOf (initialize (mirrorReturns (keyRecord (JStr "ecdsa")))
                               (new sampleOptions 0))) = 7.
Proof.
  destruct (@resolved_initialize_calls (mirrorReturns (keyRecord (JStr "ecdsa")))
              (new sampleOptions 0) eq_refl) as (a & pk & c & cfg & _ & _ & Hev & _).
  rewrite Hev. reflexivity.
Defined.




(** X12.  The state manager and the plugin of a kit reach the host agent:
    in every configuration a kit hands over, after any earlier calls,
    [pluginConfig.appConfig.stateManager] is the state manager the
    constructor chose (the supplied one, else the default) and the first
    plugin is the plugin the constructor created. *)
Theorem constructor_choices_reach_config calls opts ref w cfg :
  assembledConfig (eventsOf (initialize w (run calls (new opts ref)))) = Some cfg ->
  appStateManagerOf cfg = Some match opt_stateManager opts with
                               | Some sm => sm
                               | None => OpenConvaiState
                               end
  /\ option_map (@hd_error BasePlugin) (pluginsOf cfg) = Some (Some (OpenConvAIPluginRef ref)).
Proof.
  intros H. destruct (assembled_config_facts _ _ H) as (a & _ & Hf).
  destruct Hf as (Hplugins & _).
  destruct (kit_fields_are_stable calls opts ref) as (Hp & Hs & _).
  unfold appStateManagerOf, pluginsOf. rewrite Hplugins, Hp, Hs. split; reflexivity.
Qed.

Lemma constructor_choices_reach_config_witness :
  exists cfg,
    assembledConfig
      (eventsOf (initialize (mirrorReturns JNull)
                   (run [Initialize mirrorRejects] (new (withPreamble "x") 4)))) = Some cfg
    /\ appStateManagerOf cfg = Some (HostState 7).
Proof.
  eexists. split; [reflexivity|].
  destruct (@constructor_choices_reach_config [Initialize mirrorRejects] (withPreamble "x") 4
              (mirrorReturns JNull) _ eq_refl) as (H & _).
  exact H.
Defined.

Lemma defaultSystemMessage_includes a :
  includes (defaultSystemMessage a) a = true
  /\ includes (defaultSystemMessage a) "HCS-10" = true.
Proof.
  split; apply includes_app.
  - exists ("You are a helpful assistant managing Hedera HCS-10 connections and messages."
            ++ nl ++
            "You have access to tools for registering agents, finding registered agents, initiating connections, listing active connections, sending messages over connections, and checking for new messages."
            ++ nl ++ nl ++ "*** IMPORTANT CONTEXT ***" ++ nl
            ++ "You are currently operating as agent: ")%string.
    eexists. reflexivity.
  - exists "You are a helpful assistant managing Hedera ". eexists. reflexivity.
Qed.

Lemma systemMessage_includes a :
  includes (StandardsKitBasic.systemMessage a) a = true.
Proof.
  apply includes_app.
  exists ("You are a helpful assistant managing Hedera HCS-10 connections and messages."
          ++ nl ++
          "You have access to tools for registering agents, finding registered agents, initiating connections, listing active connections, sending messages over connections, and checking for new messages."
          ++ nl ++ nl ++ "*** IMPORTANT CONTEXT ***" ++ nl
          ++ "You are currently operating as agent: ")%string.
  eexists. reflexivity.
Qed.

(** X13.  When the caller supplies no prompt preamble (or an empty one), the
    preamble handed to the host agent names the kit's own account
    identifier, whatever that identifier is, and mentions HCS-10. *)
Theorem default_preamble_names_account w k cfg :
  assembledConfig (eventsOf (initialize w k)) = Some cfg ->
  customSystemMessagePreamble (options k) = None
  \/ customSystemMessagePreamble (options k) = Some "" ->
  exists a text,
    accountId (options k) = Some a
    /\ preambleOf cfg = Some text
    /\ includes text a = true
    /\ includes text "HCS-10" = true.
Proof.
  intros H Hpre. destruct (assembled_config_facts _ _ H) as (a & Ha & Hf).
  destruct Hf as (_ & _ & _ & _ & _ & _ & Hfield & _).
  exists a, (defaultSystemMessage a). split.
  { destruct (accountId (options k)) as [s|]; simpl in Ha; [|discriminate].
    destruct (s =? ""); congruence. }
  split.
  { unfold preambleOf. rewrite Hfield. destruct Hpre as [-> | ->]; reflexivity. }
  apply defaultSystemMessage_includes.
Qed.

Lemma default_preamble_names_account_witness :
  exists cfg text,
    assembledConfig (eventsOf (initialize (mirrorReturns JNull)
                                          (new (credentials "0.0.777" "key") 0))) = Some cfg
    /\ preambleOf cfg = Some text
    /\ includes text "0.0.777" = true.
Proof.
  destruct (@default_preamble_names_account (mirrorReturns JNull)
              (new (credentials "0.0.777" "key") 0) _ eq_refl (or_introl eq_refl))
    as (a & text & Ha & Ht & Hi & _).
  eexists. exists text. split; [reflexivity|]. split; [exact Ht|].
  injection Ha as <-. exact Hi.
Defined.

Lemma field_same_but_last key (pre : HederaConversationalAgentConfig) k7 v vb :
  key <> k7 ->
  field key (pre ++ [(k7, v)]) = field key (pre ++ [(k7, vb)]).
Proof.
  intros Hkey. rewrite !field_app. destruct (field key pre); [reflexivity|].
  cbn [field]. destruct (String.eqb_spec k7 key); [congruence | reflexivity].
Qed.

(** X14.  The two revisions differ only in the prompt.  Given the same
    eight options and the same collaborators, the fifteen-option revision
    makes the same calls as the eight-option one up to the construction of
    the host agent; either both construct it or both reject with the same
    error; and the two configurations agree on every property except
    [customSystemMessagePreamble]. *)
Theorem revisions_differ_only_in_prompt w o ref :
  let r := initialize w (new (widen o) ref) in
  let rb := StandardsKitBasic.initialize w (StandardsKitBasic.new o ref) in
  beforeAgent (eventsOf r) = beforeAgent (eventsOf rb)
  /\ match assembledConfig (eventsOf r), assembledConfig (eventsOf rb) with
     | Some cfg, Some cfgb =>
         forall key, key <> "customSystemMessagePreamble" -> field key cfg = field key cfgb
     | None, None => completionOf r = completionOf rb
     | _, _ => False
     end.
Proof.
  cbv zeta.
  unfold initialize, StandardsKitBasic.initialize,
         bind, get, try_catch, call, lift, modify, throw, ret.
  cbn [options StandardsKitBasic.options new StandardsKitBasic.new widen
       accountId privateKey network StandardsKitBasic.accountId
       StandardsKitBasic.privateKey StandardsKitBasic.network].
  destruct (if_truthy (StandardsKitBasic.accountId o)) as [a|];
    [|split; reflexivity].
  destruct (if_truthy (StandardsKitBasic.privateKey o)) as [pk|];
    [|split; reflexivity].
  destruct (requestAccount w _ a) as [info|e]; [|split; reflexivity].
  destruct (lowerCaseIncludes _ "ecdsa") as [ecdsa|e]; [|split; reflexivity].
  destruct ecdsa; unfold built.
  - destruct (failFromStringECDSA w pk) as [e|]; [split; reflexivity|].
    cbn -[defaultSystemMessage StandardsKitBasic.systemMessage field].
    repeat match goal with
           | |- context [agentInitialize w ?ag] =>
               destruct (agentInitialize w ag) as [[]|?]
           end;
      (split; [reflexivity|]);
      intros key Hkey; cbn [eventsOf fst snd assembledConfig app];
      match goal with
      | |- field key (?e1 :: ?e2 :: ?e3 :: ?e4 :: ?e5 :: ?e6 :: [(?k7, ?v)])
           = field key (_ :: _ :: _ :: _ :: _ :: _ :: [(_, ?vb)]) =>
          exact (@field_same_but_last key [e1; e2; e3; e4; e5; e6] k7 v vb Hkey)
      end.
  - destruct (failFromStringED25519 w pk) as [e|]; [split; reflexivity|].
    cbn -[defaultSystemMessage StandardsKitBasic.systemMessage field].
    repeat match goal with
           | |- context [agentInitialize w ?ag] =>
               destruct (agentInitialize w ag) as [[]|?]
           end;
      (split; [reflexivity|]);
      intros key Hkey; cbn [eventsOf fst snd assembledConfig app];
      match goal with
      | |- field key (?e1 :: ?e2 :: ?e3 :: ?e4 :: ?e5 :: ?e6 :: [(?k7, ?v)])
           = field key (_ :: _ :: _ :: _ :: _ :: _ :: [(_, ?vb)]) =>
          exact (@field_same_but_last key [e1; e2; e3; e4; e5; e6] k7 v vb Hkey)
      end.
Qed.

(** With both credentials in place the account is looked up, once. *)
Lemma lookup_with_credentials w k a pk :
  if_truthy (accountId (options k)) = Some a ->
  if_truthy (privateKey (options k)) = Some pk ->
  lookupCalls (eventsOf (initialize w k)) = [(networkOf k, a)].
Proof.
  intros Ha Hp.
  destruct (initialize_runs w k) as [H | a0 pk0 e H1 H2 | a0 pk0 info e H1 H2
                                     | a0 pk0 info ecdsa e H1 H2
                                     | a0 pk0 info ecdsa cfg c H1 H2];
    unfold eventsOf; cbn [fst snd].
  - destruct H as [H|H]; congruence.
  - rewrite Ha in H1. injection H1 as <-. reflexivity.
  - rewrite Ha in H1. injection H1 as <-. reflexivity.
  - rewrite Ha in H1. injection H1 as <-. destruct ecdsa; reflexivity.
  - rewrite Ha in H1. injection H1 as <-.
    destruct c as [[]|e]; destruct ecdsa; reflexivity.
Qed.

End KitTraceProperties.

(* ===================================================================== *)
(** ** Properties of the build configuration helpers                      *)
(* ===================================================================== *)

Section ViteConfigProperties.
Import ViteConfig.

Lemma prefix_of_append d rest : String.prefix d (d ++ rest)%string = true.
Proof. apply prefix_app. exists rest. reflexivity. Qed.

Lemma string_append_assoc (a b c : string) :
  ((a ++ b) ++ c = a ++ (b ++ c))%string.
Proof. induction a as [|x a IH]; simpl; [reflexivity | rewrite IH; reflexivity]. Qed.

Lemma isListed_dependency dep sub :
  In dep EXTERNAL_DEPENDENCIES ->
  isListed dep = true /\ isListed (dep ++ "/" ++ sub)%string = true.
Proof.
  intros Hin. unfold isListed. split; apply existsb_exists; exists dep; (split; [exact Hin|]).
  - rewrite String.eqb_refl. reflexivity.
  - apply orb_true_iff. right.
    apply prefix_app. exists sub. rewrite string_append_assoc. reflexivity.
Qed.

Lemma isListed_relative c rest :
  c = "."%char \/ c = "/"%char -> isListed (String c rest) = false.
Proof. intros [-> | ->]; destruct rest; reflexivity. Qed.

(** X15.  Which imports the bundler leaves out.  The five listed packages
    and every subpath of them are external in every build format; an id
    that starts with "." or "/" is never external; the UMD build treats
    nothing else as external, while every other format also externalizes
    any id that neither starts with "." or "/" nor contains the project
    directory -- so whatever is external for UMD is external for every
    format. *)
Theorem external_dependencies dirname id format :
  (forall dep sub,
      In dep EXTERNAL_DEPENDENCIES ->
      isExternalDependency dirname dep format = true
      /\ isExternalDependency dirname (dep ++ "/" ++ sub)%string format = true)
  /\ (String.prefix "." id = true \/ String.prefix "/" id = true ->
      isExternalDependency dirname id format = false)
  /\ (isExternalDependency dirname id "umd" = isListed id)
  /\ (isExternalDependency dirname id "umd" = true ->
      isExternalDependency dirname id format = true)
  /\ (format <> "umd" ->
      String.prefix "." id = false -> String.prefix "/" id = false ->
      includes id dirname = false ->
      isExternalDependency dirname id format = true).
Proof.
  split; [|split; [|split; [|split]]].
  - intros dep sub Hin. destruct (@isListed_dependency dep sub Hin) as [H1 H2].
    unfold isExternalDependency. rewrite H1, H2.
    destruct (format =? "umd"); split; reflexivity.
  - intros Hrel.
    assert (Hl : isListed id = false).
    { destruct Hrel as [H|H]; apply prefix_app in H; destruct H as [post ->];
        apply isListed_relative; auto. }
    unfold isExternalDependency. rewrite Hl.
    destruct (format =? "umd"); [reflexivity|].
    destruct Hrel as [H|H]; rewrite H; cbn [negb andb orb];
      rewrite ?andb_false_r; reflexivity.
  - reflexivity.
  - intros H. change (isListed id = true) in H.
    unfold isExternalDependency. rewrite H. destruct (format =? "umd"); reflexivity.
  - intros Hf H1 H2 H3. unfold isExternalDependency.
    destruct (String.eqb_spec format "umd"); [contradiction|].
    rewrite H1, H2, H3. apply orb_true_r.
Qed.

Lemma external_dependencies_witness :
  isExternalDependency "/home/project" "zod/lib/types" "umd" = true
  /\ isExternalDependency "/home/project" "./src/index" "es" = false
  /\ isExternalDependency "/home/project" "node:path" "cjs" = true.
Proof.
  destruct (external_dependencies "/home/project" "./src/index" "es") as (_ & Hrel & _).
  destruct (external_dependencies "/home/project" "node:path" "cjs")
    as (Hdep & _ & _ & _ & Hbare).
  split; [|split].
  - destruct (external_dependencies "/home/project" "zod" "umd") as (H & _).
    destruct (H "zod" "lib/types") as (_ & H2); [|exact H2].
    right. right. right. right. left. reflexivity.
  - apply Hrel. left. reflexivity.
  - apply Hbare; [discriminate | reflexivity | reflexivity | reflexivity].
Defined.

Ltac by_format format :=
  destruct (String.eqb_spec format "umd") as [?|?];
  destruct (String.eqb_spec format "cjs") as [?|?];
  destruct (String.eqb_spec format "es") as [?|?];
  subst; try discriminate; try congruence.

(** X16.  Where a build puts its entry file.  Only "umd" writes
    [dist/umd/standards-agent-plugin.umd.js] and only "cjs" writes
    [dist/cjs/index.cjs]; every other format value, known or not, writes
    [dist/esm/index.js].  So two builds overwrite each other's entry file
    exactly when their formats are equal or both are neither "umd" nor
    "cjs".  The three files are the ones package.json points to, and the
    type declarations go to [dist/types] for "es" only -- for any other
    format they land in the build's own output directory. *)
Theorem build_entry_files :
  (forall f1 f2,
      entryFile f1 = entryFile f2 <->
      f1 = f2 \/ (f1 <> "umd" /\ f1 <> "cjs" /\ f2 <> "umd" /\ f2 <> "cjs"))
  /\ (forall f, f <> "umd" -> f <> "cjs" -> entryFile f = "dist/esm/index.js")
  /\ ("./" ++ entryFile "es" = package_module
      /\ "./" ++ entryFile "cjs" = package_main
      /\ "./" ++ entryFile "umd" = package_browser_require)%string
  /\ (forall f,
        getTypesOutputDirectory f (getOutputDirectory f) =
          if f =? "es" then "dist/types" else getOutputDirectory f)
  /\ ("./" ++ getTypesOutputDirectory "es" (getOutputDirectory "es") ++ "/index.d.ts"
      = package_types)%string.
Proof.
  split; [|split; [|split; [|split]]].
  - intros f1 f2. unfold entryFile, getOutputDirectory, getFileName.
    destruct (String.eqb_spec f1 "umd") as [->|H1u];
      destruct (String.eqb_spec f2 "umd") as [->|H2u];
      try destruct (String.eqb_spec f1 "cjs") as [->|H1c];
      try destruct (String.eqb_spec f2 "cjs") as [->|H2c];
      cbn; split; intros H; try discriminate H; auto;
      try (destruct H as [H|(?&?&?&?)]; congruence).
  - intros f Hu Hc. unfold entryFile, getOutputDirectory, getFileName.
    destruct (String.eqb_spec f "umd"); [contradiction|].
    destruct (String.eqb_spec f "cjs"); [contradiction|]. reflexivity.
  - repeat split.
  - intros f. unfold getTypesOutputDirectory. reflexivity.
  - reflexivity.
Qed.

Lemma build_entry_files_witness :
  entryFile "iife" = entryFile "es" /\ entryFile "system" = "dist/esm/index.js".
Proof.
  destruct build_entry_files as (Hsame & Hother & _).
  split.
  - apply (proj2 (Hsame "iife" "es")). right.
    repeat split; discriminate.
  - apply Hother; discriminate.
Defined.

(** X17.  The Rollup output options never ask for both [preserveModules]
    and [inlineDynamicImports], whatever the format; [preserveModulesRoot]
    is set exactly when [preserveModules] is on (format "es"), the global
    [name] exactly when the format is "umd", the [globals] mapping for
    every format but "cjs", and [exports] is always "named". *)
Theorem rollup_output_is_consistent format :
  let o := createRollupOutput format in
  ~ (outputField "preserveModules" o = Some (OBool true)
     /\ outputField "inlineDynamicImports" o = Some (OBool true))
  /\ (outputField "preserveModules" o = Some (OBool true) <-> format = "es")
  /\ (outputField "preserveModulesRoot" o <> None <-> format = "es")
  /\ (outputField "inlineDynamicImports" o = Some (OBool true) <-> format = "umd")
  /\ (outputField "name" o <> None <-> format = "umd")
  /\ (outputField "globals" o = None <-> format = "cjs")
  /\ outputField "exports" o = Some (OStr "named").
Proof.
  cbv zeta. unfold createRollupOutput.
  destruct (String.eqb_spec format "cjs") as [->|Hc].
  { cbn. repeat split; try (intros H; discriminate H); try (intros H; congruence).
    intros [H _]. discriminate H. }
  destruct (String.eqb_spec format "es") as [->|He].
  { cbn. repeat split; try (intros H; discriminate H); try (intros H; congruence).
    intros [_ H]. discriminate H. }
  destruct (String.eqb_spec format "umd") as [->|Hu].
  { cbn. repeat split; try (intros H; discriminate H); try (intros H; congruence).
    intros [H _]. discriminate H. }
  cbn. repeat split; try (intros H; discriminate H); try (intros H; congruence).
  intros [H _]. discriminate H.
Qed.

(** X18.  Global names for the UMD build.  Each of the five external
    packages has its own entry in [GLOBAL_MAP], and the five names are
    pairwise distinct; [getGlobalName] returns that name for them and
    returns any other id unchanged -- unless the id is the name of a
    property every object inherits (such as "constructor" or "toString"),
    for which the lookup finds the inherited value and that value, not a
    string, is returned. *)
Theorem global_names :
  map fst GLOBAL_MAP = EXTERNAL_DEPENDENCIES
  /\ NoDup (map snd GLOBAL_MAP)
  /\ (forall dep name, In (dep, name) GLOBAL_MAP -> getGlobalName dep = Global name)
  /\ (forall id,
        ~ In id EXTERNAL_DEPENDENCIES ->
        getGlobalName id = if existsb (String.eqb id) objectPrototypeKeys
                           then Inherited id else Global id).
Proof.
  split; [reflexivity|]. split.
  { cbn. repeat (constructor; [cbn; intuition discriminate|]). constructor. }
  split.
  - intros dep name Hin. cbn in Hin.
    repeat (destruct Hin as [Hin|Hin]; [injection Hin as <- <-; reflexivity|]).
    contradiction.
  - intros id Hid. unfold getGlobalName.
    assert (Hown : ownProperty id GLOBAL_MAP = None).
    { cbn [ownProperty GLOBAL_MAP].
      repeat match goal with
             | |- context [?d =? id] =>
                 destruct (String.eqb_spec d id) as [<-|_];
                 [exfalso; apply Hid; cbn; tauto|]
             end.
      reflexivity. }
    rewrite Hown. reflexivity.
Qed.

Lemma global_names_witness :
  getGlobalName "zod" = Global "Zod"
  /\ getGlobalName "lodash" = Global "lodash"
  /\ getGlobalName "constructor" = Inherited "constructor".
Proof.
  destruct global_names as (_ & _ & Hdep & Hother).
  split; [|split].
  - apply Hdep. cbn. tauto.
  - apply (Hother "lodash"). cbn. intuition discriminate.
  - apply (Hother "constructor"). cbn. intuition discriminate.
Defined.

End ViteConfigProperties.

(* ===================================================================== *)
(** ** Properties of the demo script's selection of an agent              *)
(* ===================================================================== *)

Section DemoProperties.
Import InteractiveDemo.

Lemma listAgents_run index agents :
  listAgents index agents tt = (tt, map ConsoleLog (listing index agents), Normal tt).
Proof.
  revert index. induction agents as [|agent rest IH]; intros index; [reflexivity|].
  cbn [listAgents listing map]. unfold bind, console_log, call.
  rewrite IH. reflexivity.
Qed.

Lemma listing_nth agents : forall index i,
  nth_error (listing index agents) i =
    option_map (listingLine (index + i)) (nth_error agents i).
Proof.
  induction agents as [|agent rest IH]; intros index i.
  - destruct i; reflexivity.
  - destruct i as [|i]; cbn [listing nth_error option_map].
    + rewrite Nat.add_0_r. reflexivity.
    + rewrite IH. replace (S index + i)%nat with (index + S i)%nat by lia. reflexivity.
Qed.

Lemma logged_logs lines : logged (map ConsoleLog lines) = lines.
Proof. induction lines as [|l ls IH]; [reflexivity|]. cbn. f_equal. exact IH. Qed.


Lemma logged_app evs1 evs2 : logged (evs1 ++ evs2) = logged evs1 ++ logged evs2.
Proof. unfold logged. apply flat_map_app. Qed.


(** The three ways a selection among two agents or more ends. *)
Lemma prompt_cases answer first second rest :
  let agents := first :: second :: rest in
  let r := promptUserToSelectAgent answer agents tt in
  (trim answer = []
   /\ r = (tt, asking agents
               ++ [ConsoleLog ("Defaulting to first agent: " ++ name first)%string],
           Normal (Some first)))
  \/ (trim answer <> []
      /\ (parseInt answer = None
          \/ exists n, parseInt answer = Some n
                       /\ (n - 1 < 0 \/ Z.of_nat (length agents) <= n - 1)%Z)
      /\ r = (tt, asking agents
                  ++ [ConsoleLog ("Invalid choice. Defaulting to first agent: "
                                  ++ name first)%string],
              Normal (Some first)))
  \/ (trim answer <> []
      /\ exists i a, parseInt answer = Some (Z.of_nat i + 1)%Z
                     /\ nth_error agents i = Some a
                     /\ r = (tt, asking agents, Normal (Some a))).
Proof.
  cbv zeta.
  remember (promptUserToSelectAgent answer (first :: second :: rest) tt) as r eqn:Hr.
  unfold promptUserToSelectAgent, bind, console_log, call in Hr.
  rewrite listAgents_run in Hr. unfold asking.
  destruct (trim answer) as [|c cs] eqn:Ht.
  { left. split; [reflexivity|]. subst r. unfold ret.
    cbn [app]. rewrite <- app_assoc. reflexivity. }
  right.
  destruct (parseInt answer) as [n|] eqn:Hp.
  2:{ left. split; [discriminate|]. split; [left; reflexivity|]. subst r. unfold ret.
      cbn [app]. rewrite <- app_assoc. reflexivity. }
  destruct ((n - 1 <? 0)%Z || (n - 1 >=? Z.of_nat (length (first :: second :: rest)))%Z)
    eqn:Hb.
  - left. split; [discriminate|]. split.
    + right. exists n. split; [reflexivity|].
      apply orb_true_iff in Hb. destruct Hb as [Hb|Hb]; [left|right]; lia.
    + subst r. unfold ret. cbn [app]. rewrite <- app_assoc. reflexivity.
  - right. split; [discriminate|].
    pose proof Hb as Hb'. apply orb_false_iff in Hb'. destruct Hb' as [Hlo Hhi].
    assert (Hi : (Z.to_nat (n - 1) < length (first :: second :: rest))%nat) by lia.
    destruct (nth_error (first :: second :: rest) (Z.to_nat (n - 1))) as [a|] eqn:Hn.
    2:{ apply nth_error_None in Hn. lia. }
    exists (Z.to_nat (n - 1)), a. split; [f_equal; lia|]. split; [exact Hn|].
    subst r. unfold ret. cbn [app]. reflexivity.
Qed.

(** *** Characters *)

Lemma digit_is_no_space c : isDecimalDigit c = true -> isWhiteSpace c = false.
Proof.
  unfold isDecimalDigit. intros H. apply andb_true_iff in H. destruct H as [H1 H2].
  apply N.leb_le in H1, H2. unfold isWhiteSpace. cbn [existsb].
  repeat match goal with
         | |- context [N.eqb c ?k] =>
             replace (N.eqb c k) with false by (symmetry; apply N.eqb_neq; lia)
         end.
  replace (8192 <=? c)%N with false by (symmetry; apply N.leb_gt; lia).
  reflexivity.
Qed.

Lemma trimStart_spaces pre s :
  forallb isWhiteSpace pre = true -> trimStart (pre ++ s) = trimStart s.
Proof.
  induction pre as [|c pre IH]; intros H; [reflexivity|].
  cbn in H. apply andb_true_iff in H. destruct H as [Hc Hpre].
  cbn. rewrite Hc. auto.
Qed.

Lemma trimStart_keeps c s :
  In c s -> isWhiteSpace c = false -> In c (trimStart s).
Proof.
  intros Hin Hc. induction s as [|x s IH]; [contradiction|].
  cbn. destruct (isWhiteSpace x) eqn:Hx.
  - destruct Hin as [->|Hin]; [congruence | auto].
  - exact Hin.
Qed.

Lemma trim_keeps c s : In c s -> isWhiteSpace c = false -> trim s <> [].
Proof.
  intros Hin Hc. unfold trim, trimEnd.
  assert (H : In c (rev (trimStart (rev (trimStart s))))).
  { apply in_rev. rewrite rev_involutive. apply trimStart_keeps; [|exact Hc].
    apply -> in_rev. apply trimStart_keeps; assumption. }
  intros E. rewrite E in H. contradiction.
Qed.

(** *** Numerals *)

Lemma mathInt_snoc R ds d : mathInt R (ds ++ [d]) = (R * mathInt R ds + d)%Z.
Proof. unfold mathInt. rewrite fold_left_app. reflexivity. Qed.

Lemma digitsOf_spec fuel : forall n acc,
  (n < fuel)%nat ->
  exists d ds,
    digitsOf fuel n acc = d :: ds ++ acc
    /\ Forall (fun c => isDecimalDigit c = true) (d :: ds)
    /\ ((0 < n)%nat -> d <> 48%N)
    /\ mathInt 10 (map digitOf (d :: ds)) = Z.of_nat n.
Proof.
  induction fuel as [|fuel IH]; intros n acc Hn; [lia|].
  cbn [digitsOf].
  assert (Hm : (n mod 10 < 10)%nat) by (apply Nat.mod_upper_bound; lia).
  assert (Hdigit : isDecimalDigit (N.of_nat (48 + n mod 10)) = true).
  { unfold isDecimalDigit. apply andb_true_iff. split; apply N.leb_le; lia. }
  assert (Hval : digitOf (N.of_nat (48 + n mod 10)) = Z.of_nat (n mod 10)).
  { unfold digitOf. lia. }
  pose proof (Nat.div_mod_eq n 10) as Hdm.
  destruct (n / 10 =? 0)%nat eqn:Hq.
  - apply Nat.eqb_eq in Hq.
    exists (N.of_nat (48 + n mod 10)), []. split; [reflexivity|]. split.
    + constructor; [exact Hdigit | constructor].
    + split; [lia|]. cbn [map]. unfold mathInt. cbn [fold_left]. rewrite Hval. lia.
  - apply Nat.eqb_neq in Hq.
    destruct (IH (n / 10)%nat (N.of_nat (48 + n mod 10) :: acc)) as (d & ds & He & Hf & Hz & Hv).
    { lia. }
    exists d, (ds ++ [N.of_nat (48 + n mod 10)]). split.
    { rewrite He. cbn [app]. rewrite <- app_assoc. reflexivity. }
    split.
    { rewrite app_comm_cons. apply Forall_app. split; [exact Hf|].
      constructor; [exact Hdigit | constructor]. }
    split; [intros _; apply Hz; lia|].
    rewrite app_comm_cons, map_app. cbn [map] in Hv |- *.
    rewrite mathInt_snoc, Hv, Hval. lia.
Qed.

Lemma decimal_spec n :
  exists d ds,
    decimal n = d :: ds
    /\ Forall (fun c => isDecimalDigit c = true) (d :: ds)
    /\ ((0 < n)%nat -> d <> 48%N)
    /\ mathInt 10 (map digitOf (d :: ds)) = Z.of_nat n.
Proof.
  destruct (@digitsOf_spec (S n) n [] (Nat.lt_succ_diag_r n)) as (d & ds & He & H).
  exists d, ds. split; [|exact H]. unfold decimal. rewrite He, app_nil_r. reflexivity.
Qed.

Lemma digitValue_digit c : isDecimalDigit c = true -> digitValue c = Some (digitOf c).
Proof. unfold digitValue, isDecimalDigit. intros ->. reflexivity. Qed.

Lemma radixDigits_decimal ds post :
  Forall (fun c => isDecimalDigit c = true) ds ->
  startsWithDigit post = false ->
  radixDigits 10 (ds ++ post) = map digitOf ds.
Proof.
  intros Hds Hpost. induction Hds as [|c ds Hc _ IH].
  - destruct post as [|c post]; [reflexivity|]. cbn in *.
    unfold digitValue. unfold isDecimalDigit in Hpost. rewrite Hpost.
    destruct ((97 <=? c) && (c <=? 122))%N eqn:Hl.
    { apply andb_true_iff in Hl. destruct Hl as [H1 H2]. apply N.leb_le in H1, H2.
      replace (Z.of_N c - 87 <? 10)%Z with false by (symmetry; apply Z.ltb_ge; lia).
      reflexivity. }
    destruct ((65 <=? c) && (c <=? 90))%N eqn:Hu; [|reflexivity].
    apply andb_true_iff in Hu. destruct Hu as [H1 H2]. apply N.leb_le in H1, H2.
    replace (Z.of_N c - 55 <? 10)%Z with false by (symmetry; apply Z.ltb_ge; lia).
    reflexivity.
  - cbn [app radixDigits map]. rewrite (@digitValue_digit c Hc).
    unfold isDecimalDigit in Hc. apply andb_true_iff in Hc. destruct Hc as [H1 H2].
    apply N.leb_le in H1, H2.
    replace (digitOf c <? 10)%Z with true by (symmetry; apply Z.ltb_lt; unfold digitOf; lia).
    rewrite IH. reflexivity.
Qed.

(** [parseInt] reads back the numeral of a positive number, whatever white
    space precedes it and whatever follows it that is no digit. *)
Lemma parseInt_decimal n pre post :
  (0 < n)%nat ->
  forallb isWhiteSpace pre = true ->
  startsWithDigit post = false ->
  parseInt (pre ++ decimal n ++ post) = Some (Z.of_nat n).
Proof.
  intros Hn Hpre Hpost.
  destruct (decimal_spec n) as (d & ds & He & Hf & Hz & Hv). rewrite He.
  specialize (Hz Hn).
  pose proof (Forall_inv Hf) as Hd.
  unfold parseInt. rewrite (@trimStart_spaces pre _ Hpre).
  cbn [app trimStart]. rewrite (@digit_is_no_space d Hd).
  unfold isDecimalDigit in Hd. apply andb_true_iff in Hd. destruct Hd as [H1 H2].
  apply N.leb_le in H1, H2.
  unfold stripSign.
  replace (d =? 45)%N with false by (symmetry; apply N.eqb_neq; lia).
  replace (d =? 43)%N with false by (symmetry; apply N.eqb_neq; lia).
  assert (Hs : stripPrefix (d :: ds ++ post) = (10%Z, d :: ds ++ post)).
  { unfold stripPrefix. destruct (ds ++ post) as [|c1 rest]; [reflexivity|].
    replace (d =? 48)%N with false by (symmetry; apply N.eqb_neq; lia). reflexivity. }
  rewrite Hs. rewrite (app_comm_cons ds post d), (@radixDigits_decimal (d :: ds) post Hf Hpost).
  cbn [map] in Hv |- *. rewrite Hv. f_equal. lia.
Qed.

Lemma decimal_has_digit n :
  exists d, In d (decimal n) /\ isWhiteSpace d = false.
Proof.
  destruct (decimal_spec n) as (d & ds & He & Hf & _).
  exists d. rewrite He. split; [left; reflexivity|].
  apply digit_is_no_space. exact (Forall_inv Hf).
Qed.


(** X20.  The number shown in front of an agent selects that agent.  With
    two agents or more, the listing shows agent [i] (counted from 0) behind
    the numeral of [i + 1]; an answer made of that numeral, with white
    space before it and anything but a digit after it, makes
    [promptUserToSelectAgent] return that agent, and nothing but the
    heading and the listing is written to the console. *)
Theorem typed_number_selects_that_agent agents i a pre post :
  (2 <= length agents)%nat ->
  nth_error agents i = Some a ->
  forallb isWhiteSpace pre = true ->
  startsWithDigit post = false ->
  let r := promptUserToSelectAgent (pre ++ decimal (i + 1) ++ post) agents tt in
  completionOf r = Normal (Some a)
  /\ logged (eventsOf r) = (StandardsKit.nl ++ "Available agents:")%string :: listing 0 agents
  /\ nth_error (listing 0 agents) i
     = Some (fromCodeUnits (decimal (i + 1)) ++ ". " ++ name a
             ++ " (" ++ accountId a ++ ")")%string.
Proof.
  intros Hlen Hn Hpre Hpost. cbv zeta.
  destruct agents as [|first [|second rest]]; [cbn in Hlen; lia | cbn in Hlen; lia |].
  pose proof (@parseInt_decimal (i + 1) pre post ltac:(lia) Hpre Hpost) as Hparse.
  assert (Htrim : trim (pre ++ decimal (i + 1) ++ post) <> []).
  { destruct (decimal_has_digit (i + 1)) as (d & Hin & Hd).
    apply (@trim_keeps d); [|exact Hd].
    apply in_or_app. right. apply in_or_app. left. exact Hin. }
  assert (Hi : (i < length (first :: second :: rest))%nat)
    by (apply nth_error_Some; congruence).
  destruct (@prompt_cases (pre ++ decimal (i + 1) ++ post) first second rest)
    as [(E & _) | [(_ & Hbad & _) | (_ & j & b & Hp & Hj & Hrun)]].
  - contradiction.
  - exfalso. rewrite Hparse in Hbad.
    destruct Hbad as [Hbad | (n & Hbad & Hr)]; [discriminate Hbad|].
    injection Hbad as <-. lia.
  - rewrite Hrun. rewrite Hparse in Hp.
    assert (j = i) by (injection Hp; lia). subst j.
    split; [|split].
    + unfold completionOf; cbn [snd]. congruence.
    + unfold eventsOf; cbn [fst snd]. unfold asking. cbn [logged flat_map app].
      fold (logged (map ConsoleLog (listing 0 (first :: second :: rest))
                    ++ [CreateInterface; Question query; Close])).
      rewrite logged_app, logged_logs. cbn [logged flat_map app].
      rewrite app_nil_r. reflexivity.
    + rewrite listing_nth, Hn. reflexivity.
Qed.

(** X21.  [loadAgentFromEnv] never throws.  An identity it returns is
    named after the prefix and carries the four required variables of that
    prefix, none of them empty, and the profile topic as it is set or not;
    nothing is logged.  It returns [null], after one line on the console,
    exactly when one of the four is not set or is empty. *)
Theorem loaded_agent_is_complete env prefix :
  let r := loadAgentFromEnv env prefix tt in
  match completionOf r with
  | Normal (Some a) =>
      eventsOf r = []
      /\ name a = (prefix ++ " Agent")%string
      /\ env (prefix ++ "_ACCOUNT_ID")%string = Some (accountId a) /\ accountId a <> ""
      /\ env (prefix ++ "_PRIVATE_KEY")%string = Some (privateKey a) /\ privateKey a <> ""
      /\ env (prefix ++ "_INBOUND_TOPIC_ID")%string = Some (inboundTopicId a)
      /\ inboundTopicId a <> ""
      /\ env (prefix ++ "_OUTBOUND_TOPIC_ID")%string = Some (outboundTopicId a)
      /\ outboundTopicId a <> ""
      /\ profileTopicId a = env (prefix ++ "_PROFILE_TOPIC_ID")%string
  | Normal None =>
      eventsOf r =
        [ConsoleLog ("Incomplete agent details for prefix " ++ prefix ++ ", skipping.")%string]
      /\ exists v, In v ["_ACCOUNT_ID"; "_PRIVATE_KEY"; "_INBOUND_TOPIC_ID";
                         "_OUTBOUND_TOPIC_ID"]
                   /\ (env (prefix ++ v)%string = None \/ env (prefix ++ v)%string = Some "")
  | Throw _ => False
  end.
Proof.
  cbv zeta. unfold loadAgentFromEnv.
  assert (Hsome : forall x s, StandardsKit.if_truthy x = Some s -> x = Some s /\ s <> "").
  { intros [x|] s; cbn; [|discriminate]. destruct (String.eqb_spec x ""); [discriminate|].
    intros [= <-]. split; [reflexivity | assumption]. }
  assert (Hnone : forall x, StandardsKit.if_truthy x = None -> x = None \/ x = Some "").
  { intros [x|]; cbn; [|left; reflexivity]. destruct (String.eqb_spec x ""); [|discriminate].
    subst. right. reflexivity. }
  destruct (StandardsKit.if_truthy (env (prefix ++ "_ACCOUNT_ID")%string)) as [a|] eqn:Ha.
  2:{ cbn. split; [reflexivity|]. exists "_ACCOUNT_ID". split; [cbn; tauto | auto]. }
  destruct (StandardsKit.if_truthy (env (prefix ++ "_PRIVATE_KEY")%string)) as [pk|] eqn:Hp.
  2:{ cbn. split; [reflexivity|]. exists "_PRIVATE_KEY". split; [cbn; tauto | auto]. }
  destruct (StandardsKit.if_truthy (env (prefix ++ "_INBOUND_TOPIC_ID")%string)) as [it|] eqn:Hi.
  2:{ cbn. split; [reflexivity|]. exists "_INBOUND_TOPIC_ID". split; [cbn; tauto | auto]. }
  destruct (StandardsKit.if_truthy (env (prefix ++ "_OUTBOUND_TOPIC_ID")%string)) as [ot|] eqn:Ho.
  2:{ cbn. split; [reflexivity|]. exists "_OUTBOUND_TOPIC_ID". split; [cbn; tauto | auto]. }
  apply Hsome in Ha, Hp, Hi, Ho. cbn. intuition.
Qed.


Lemma typed_number_selects_that_agent_witness :
  completionOf (promptUserToSelectAgent [32; 50; 120]%N threeAgents tt)
  = Normal (Some (agentOf "ALICE" "0.0.5002")).
Proof.
  assert (Hlen : (2 <= length threeAgents)%nat) by (cbn; lia).
  destruct (@typed_number_selects_that_agent threeAgents 1 (agentOf "ALICE" "0.0.5002")
              [32%N] [120%N] Hlen eq_refl eq_refl eq_refl) as (H & _).
  exact H.
Defined.

Lemma if_truthy_kept v s :
  StandardsKit.if_truthy v = Some s -> StandardsKit.if_truthy (Some s) = Some s.
Proof.
  destruct v as [x|]; cbn; [|discriminate].
  destruct (String.eqb_spec x ""); [discriminate|].
  intros [= <-]. destruct (String.eqb_spec x ""); [contradiction | reflexivity].
Qed.

(** X22.  An identity loaded from the environment passes the kit's
    credential guard.  When the script builds its kit from the account id
    and the private key of an identity [loadAgentFromEnv] returned,
    [StandardsKit.initialize] gets past the check of the credentials: it
    looks the account up, once, on the network the script chose. *)
Theorem loaded_agent_reaches_lookup env prefix a w networkType openaiApiKey ref :
  completionOf (loadAgentFromEnv env prefix tt) = Normal (Some a) ->
  let k := StandardsKit.new
             (kitOptions (accountId a) (privateKey a) networkType openaiApiKey) ref in
  KitTrace.lookupCalls (eventsOf (StandardsKit.initialize w k))
  = [(networkType, accountId a)].
Proof.
  intros Hload. cbv zeta.
  unfold loadAgentFromEnv in Hload.
  destruct (StandardsKit.if_truthy (env (prefix ++ "_ACCOUNT_ID")%string)) as [x|] eqn:Ha;
    [|discriminate Hload].
  destruct (StandardsKit.if_truthy (env (prefix ++ "_PRIVATE_KEY")%string)) as [pk|] eqn:Hp;
    [|discriminate Hload].
  destruct (StandardsKit.if_truthy (env (prefix ++ "_INBOUND_TOPIC_ID")%string));
    [|discriminate Hload].
  destruct (StandardsKit.if_truthy (env (prefix ++ "_OUTBOUND_TOPIC_ID")%string));
    [|discriminate Hload].
  injection Hload as <-. cbn [accountId privateKey].
  apply if_truthy_kept in Ha, Hp.
  exact (@lookup_with_credentials w
           (StandardsKit.new (kitOptions x pk networkType openaiApiKey) ref) x pk Ha Hp).
Qed.

Lemma loaded_agent_reaches_lookup_witness :
  KitTrace.lookupCalls
    (eventsOf (StandardsKit.initialize KitLifecycle.mirrorRejects
                 (StandardsKit.new
                    (kitOptions "0.0.5001" "mock-private-key" "testnet" "sk-test") 0)))
  = [("testnet", "0.0.5001")].
Proof.
  exact (@loaded_agent_reaches_lookup toddEnv "TODD" (agentOf "TODD" "0.0.5001")
           KitLifecycle.mirrorRejects "testnet" "sk-test" 0 eq_refl).
Defined.

End DemoProperties.
